(** * AI code review tool: the file-intake and analysis-request pipeline

    A shallow embedding of the event handlers of [App.tsx] (the React
    component [App]): credential persistence, file validation and ingestion,
    and the analysis request with its reply parsing.

    React state is a record [State]; the browser around it (the persistent
    key-value store and the log of platform calls) is a record [World].
    Every handler is a function on worlds.  An asynchronous handler is cut at
    its suspension point: the part that runs up to the [await] (or up to the
    registration of callbacks) and the continuation that runs when the
    platform answers, the answer being an argument of the continuation.

    Strings are byte strings; file names and reply texts are taken as ASCII
    where case folding matters ([toLowerCase] folds the letters A-Z).

    [src/src/App.tsx] is the component that is modelled.  [src/App.tsx] is a
    shorter copy whose handlers ([handleFileChange], [handleClearFile],
    [analyzeCode], the two effects, the inline clear of the key) are
    statement for statement the same. *)

From Stdlib Require Import String Ascii NArith List Bool Lia.
From stdpp Require Import gmap strings pretty.
Import ListNotations.
Open Scope string_scope.

(** ** JavaScript strings: the operations the handlers use *)

Module Js.

(** A string is falsy exactly when it is empty: [!s]. *)
Definition falsy (s : string) : bool :=
  match s with EmptyString => true | String _ _ => false end.

Definition lower (c : ascii) : ascii :=
  let n := N_of_ascii c in
  if ((65 <=? n) && (n <=? 90))%N then ascii_of_N (n + 32) else c.

(** [s.toLowerCase()] on ASCII text: the letters A-Z are folded, every
    other byte is left as it is.  The platform also folds letters outside
    ASCII (the Kelvin sign goes to k), so a statement that depends on the
    folding names an ASCII segment. *)
Fixpoint toLowerCase (s : string) : string :=
  match s with
  | EmptyString => EmptyString
  | String c s' => String (lower c) (toLowerCase s')
  end.

(** [s.split(c)] for a one-character separator: never the empty array. *)
Fixpoint split (c : ascii) (s : string) : list string :=
  match s with
  | EmptyString => [EmptyString]
  | String a s' =>
      if Ascii.eqb a c then EmptyString :: split c s'
      else match split c s' with
           | [] => [String a EmptyString]
           | seg :: segs => String a seg :: segs
           end
  end.

(** [a.pop()]: the last element, [undefined] (here [None]) on the empty
    array. *)
Fixpoint pop (a : list string) : option string :=
  match a with
  | [] => None
  | [x] => Some x
  | _ :: rest => pop rest
  end.

(** [a.join(sep)] *)
Fixpoint join (sep : string) (a : list string) : string :=
  match a with
  | [] => ""
  | [x] => x
  | x :: rest => x ++ sep ++ join sep rest
  end.

(** [a.includes(x)] on an array of strings *)
Definition includes (a : list string) (x : string) : bool :=
  existsb (String.eqb x) a.

(** [s] without its leading [pat], when it starts with [pat]. *)
Fixpoint strip_prefix (pat s : string) : option string :=
  match pat, s with
  | EmptyString, _ => Some s
  | String _ _, EmptyString => None
  | String a pat', String b s' =>
      if Ascii.eqb a b then strip_prefix pat' s' else None
  end.

(** The first occurrence of [pat] in [s]: the text before it and the text
    after it. *)
Fixpoint cut (pat s : string) : option (string * string) :=
  match strip_prefix pat s with
  | Some after => Some (EmptyString, after)
  | None =>
      match s with
      | EmptyString => None
      | String c s' =>
          match cut pat s' with
          | Some (before, after) => Some (String c before, after)
          | None => None
          end
      end
  end.

(** The last occurrence of the character [c] in [s]: the text before it. *)
Fixpoint upto_last (c : ascii) (s : string) : option string :=
  match s with
  | EmptyString => None
  | String a s' =>
      match upto_last c s' with
      | Some before => Some (String a before)
      | None => if Ascii.eqb a c then Some EmptyString else None
      end
  end.

End Js.

(** ** Constants of the module *)

(** [SUPPORTED_EXTENSIONS], in the order of the object literal (the order
    [Object.keys] returns). *)
Definition SUPPORTED_EXTENSIONS : list (string * string) :=
  [ (".js", "JavaScript"); (".ts", "TypeScript"); (".jsx", "React JSX");
    (".tsx", "React TSX"); (".py", "Python"); (".java", "Java");
    (".cpp", "C++"); (".c", "C"); (".go", "Go"); (".rb", "Ruby");
    (".php", "PHP"); (".html", "HTML"); (".css", "CSS"); (".scss", "SCSS");
    (".json", "JSON"); (".md", "Markdown"); (".rs", "Rust");
    (".swift", "Swift"); (".kt", "Kotlin"); (".cs", "C#") ].

(** [Object.keys(SUPPORTED_EXTENSIONS)] *)
Definition supported_keys : list string := map fst SUPPORTED_EXTENSIONS.

(** [SUPPORTED_EXTENSIONS[k]]: the label, [undefined] (here [None]) for a
    missing key. *)
Fixpoint table_get (t : list (string * string)) (k : string) : option string :=
  match t with
  | [] => None
  | (k', v) :: t' => if String.eqb k k' then Some v else table_get t' k
  end.

Definition MAX_FILE_SIZE : N := 5 * 1024 * 1024.

Definition STORAGE_KEY : string := "deepseekApiKey".

Definition API_URL : string := "https://api.deepseek.com/v1/chat/completions".

Definition MSG_TOO_LARGE : string :=
  "File size exceeds the maximum limit of 5MB".

Definition MSG_UNSUPPORTED : string :=
  "Unsupported file type. Supported types: " ++ Js.join ", " supported_keys.

Definition MSG_READ_ERROR : string := "Error reading file".

Definition MSG_NO_KEY : string := "Please enter your Deepseek API key".

Definition MSG_NO_FILE : string := "Please upload a file to analyze".

Definition MSG_PARSE_ERROR : string :=
  "Error parsing analysis results. Please try again.".

(** ** Data *)

(** The [File] handle of the browser, as far as the handlers read it. *)
Record File := mkFile { name : string; size : N }.

(** Values produced by [JSON.parse] and by [response.json()].  An object
    keeps its members in insertion order, each key once. *)
#[warnings="-register-all"]
Inductive json (number : Type) : Type :=
| JNull
| JBool (b : bool)
| JNum (n : number)
| JStr (s : string)
| JArr (items : list (json number))
| JObj (members : list (string * json number)).

Arguments JNull {number}.
Arguments JBool {number} b.
Arguments JNum {number} n.
Arguments JStr {number} s.
Arguments JArr {number} items.
Arguments JObj {number} members.

(** What the browser provides and the repository does not define: the
    number type of JavaScript and [JSON.parse] ([None] when it throws). *)
Class Platform (number : Type) := {
  JSON_parse : string -> option (json number)
}.

(** The request handed to [fetch].  The body is kept structured; the system
    message is the fixed instruction template with the language label
    interpolated, so the label stands for it.  The temperature 0.1 is
    counted in tenths. *)
Record Request := mkRequest {
  url : string;
  method : string;
  content_type : string;
  authorization : string;
  model : string;
  system_language : string;
  user_content : string;
  temperature_tenths : N;
  max_tokens : N
}.

(** A value caught by [catch]: an [Error] with its message, or anything
    else. *)
Inductive Thrown :=
| ErrorObj (message : string)
| NonError.

(** How [reader.readAsText] ends: [onload] with the text, or [onerror]. *)
Inductive ReadOutcome :=
| ReadLoaded (content : string)
| ReadFailed.

(** Calls into the platform and the answers of the platform, logged in the
    order they happen. *)
Inductive Effect :=
| FxFetch (req : Request)
| FxFetchSettled
| FxBodyJson
| FxJsonParse (text : string)
| FxReadAsText (f : File)
| FxReadSettled
| FxSetItem (key value : string)
| FxRemoveItem (key : string)
| FxResetFileInput.

(** The result of [String.prototype.match] with a non-global pattern: the
    whole match, and the first capture group when the pattern has one. *)
Record Match := mkMatch { whole : string; group1 : option string }.

Inductive DragKind := DragEnter | DragOver | DragLeave | DragOther.

Section Model.

Context {number : Type}.

(** How [response.json()] settles. *)
Inductive Body :=
| BodyJson (data : json number)
| BodyRejects (e : Thrown).

Record Response := mkResponse {
  status : N;
  statusText : string;
  body : Body
}.

(** [response.ok]: the status is in the range 200-299. *)
Definition ok (r : Response) : bool :=
  ((200 <=? status r) && (status r <=? 299))%N.

(** How the promise of [fetch] settles. *)
Inductive FetchOutcome :=
| FetchRejects (e : Thrown)
| FetchResponds (r : Response).

(** ** React state of [App] *)

Record State := mkState {
  apiKey : string;
  showApiKey : bool;
  file : option File;
  fileContent : string;
  fileLanguage : string;
  dragActive : bool;
  fileError : string;
  isAnalyzing : bool;
  analysisResults : option (json number);
  analysisError : string
}.

Definition setApiKey (v : string) (s : State) : State :=
  mkState v (showApiKey s) (file s) (fileContent s) (fileLanguage s)
    (dragActive s) (fileError s) (isAnalyzing s) (analysisResults s)
    (analysisError s).

Definition setShowApiKey (v : bool) (s : State) : State :=
  mkState (apiKey s) v (file s) (fileContent s) (fileLanguage s)
    (dragActive s) (fileError s) (isAnalyzing s) (analysisResults s)
    (analysisError s).

Definition setFile (v : option File) (s : State) : State :=
  mkState (apiKey s) (showApiKey s) v (fileContent s) (fileLanguage s)
    (dragActive s) (fileError s) (isAnalyzing s) (analysisResults s)
    (analysisError s).

Definition setFileContent (v : string) (s : State) : State :=
  mkState (apiKey s) (showApiKey s) (file s) v (fileLanguage s)
    (dragActive s) (fileError s) (isAnalyzing s) (analysisResults s)
    (analysisError s).

Definition setFileLanguage (v : string) (s : State) : State :=
  mkState (apiKey s) (showApiKey s) (file s) (fileContent s) v
    (dragActive s) (fileError s) (isAnalyzing s) (analysisResults s)
    (analysisError s).

Definition setDragActive (v : bool) (s : State) : State :=
  mkState (apiKey s) (showApiKey s) (file s) (fileContent s) (fileLanguage s)
    v (fileError s) (isAnalyzing s) (analysisResults s) (analysisError s).

Definition setFileError (v : string) (s : State) : State :=
  mkState (apiKey s) (showApiKey s) (file s) (fileContent s) (fileLanguage s)
    (dragActive s) v (isAnalyzing s) (analysisResults s) (analysisError s).

Definition setIsAnalyzing (v : bool) (s : State) : State :=
  mkState (apiKey s) (showApiKey s) (file s) (fileContent s) (fileLanguage s)
    (dragActive s) (fileError s) v (analysisResults s) (analysisError s).

(** [null] is the absence of a result, also when it is what was parsed. *)
Definition setAnalysisResults (v : option (json number)) (s : State) : State :=
  mkState (apiKey s) (showApiKey s) (file s) (fileContent s) (fileLanguage s)
    (dragActive s) (fileError s) (isAnalyzing s)
    (match v with Some JNull => None | _ => v end) (analysisError s).

Definition setAnalysisError (v : string) (s : State) : State :=
  mkState (apiKey s) (showApiKey s) (file s) (fileContent s) (fileLanguage s)
    (dragActive s) (fileError s) (isAnalyzing s) (analysisResults s) v.

(** The values of [useState] at the first render. *)
Definition initial_state : State :=
  mkState "" false None "" "" false "" false None "".

(** ** The component in its browser *)

Record World := mkWorld {
  ui : State;
  localStorage : gmap string string;
  effects : list Effect
}.

Definition render (f : State -> State) (w : World) : World :=
  mkWorld (f (ui w)) (localStorage w) (effects w).

Definition emit (e : Effect) (w : World) : World :=
  mkWorld (ui w) (localStorage w) (effects w ++ [e]).

(** [localStorage.setItem(k, v)] *)
Definition setItem (k v : string) (w : World) : World :=
  emit (FxSetItem k v) (mkWorld (ui w) (<[k := v]> (localStorage w)) (effects w)).

(** [localStorage.removeItem(k)] *)
Definition removeItem (k : string) (w : World) : World :=
  emit (FxRemoveItem k) (mkWorld (ui w) (delete k (localStorage w)) (effects w)).

(** [localStorage.getItem(k)], [null] being [None]. *)
Definition getItem (k : string) (w : World) : option string :=
  localStorage w !! k.

End Model.

Arguments Body : clear implicits.
Arguments Response : clear implicits.
Arguments FetchOutcome : clear implicits.
Arguments State : clear implicits.
Arguments World : clear implicits.

(** ** Credential store: the two effects and the handlers of the key field *)

Section Credential.

Context {number : Type}.
Local Abbreviation World := (World number).

(** First effect, dependencies []: runs once, after the first render. *)
Definition load_effect (w : World) : World :=
  match getItem STORAGE_KEY w with
  | Some savedApiKey =>
      if Js.falsy savedApiKey then w else render (setApiKey savedApiKey) w
  | None => w
  end.

(** Body of the second effect, dependencies [apiKey]; the argument is the
    value of [apiKey] in the render the effect belongs to. *)
Definition save_effect (key : string) (w : World) : World :=
  if Js.falsy key then w else setItem STORAGE_KEY key w.

(** After an event handler has run, React renders again when the state has
    changed and runs the effects whose dependencies differ from those of
    the previous render. *)
Definition commit (before after : World) : World :=
  if String.eqb (apiKey (ui after)) (apiKey (ui before)) then after
  else save_effect (apiKey (ui after)) after.

(** The page as it is loaded: fresh React state over the store the browser
    kept. *)
Definition page_load (store : gmap string string) : World :=
  mkWorld initial_state store [].

(** The first render and its effects: both effects run, in the order they
    are declared, and both see the state of the first render; the update
    the first one asks for is rendered afterwards. *)
Definition mount (w : World) : World :=
  commit w (save_effect (apiKey (ui w)) (load_effect w)).

(** [load] of the credential store: what a restart does. *)
Definition boot (store : gmap string string) : World :=
  mount (page_load store).

(** [onChange] of the key field: [setApiKey(e.target.value)]. *)
Definition changeApiKey (value : string) (w : World) : World :=
  render (setApiKey value) w.

Definition handleClearApiKey (w : World) : World :=
  removeItem STORAGE_KEY (render (setApiKey "") w).

Definition toggleShowApiKey (w : World) : World :=
  render (setShowApiKey (negb (showApiKey (ui w)))) w.

End Credential.

(** ** File intake *)

Section FileIntake.

Context {number : Type}.
Local Abbreviation World := (World number).

(** The template literal around [name.split('.').pop()?.toLowerCase()]; an
    undefined value would print as the word undefined. *)
Definition fileExtension (f : File) : string :=
  "." ++ match Js.pop (Js.split "." (name f)) with
         | Some seg => Js.toLowerCase seg
         | None => "undefined"
         end.

(** [SUPPORTED_EXTENSIONS[ext] || 'Unknown'] *)
Definition language_of (ext : string) : string :=
  match table_get SUPPORTED_EXTENSIONS ext with
  | Some label => if Js.falsy label then "Unknown" else label
  | None => "Unknown"
  end.

(** [handleFileChange] up to and including [reader.readAsText]. *)
Definition handleFileChange (selectedFile : File) (w : World) : World :=
  let w := render (setFileError "") w in
  if (MAX_FILE_SIZE <? size selectedFile)%N then
    render (setFileError MSG_TOO_LARGE) w
  else
    let ext := fileExtension selectedFile in
    if negb (Js.includes supported_keys ext) then
      render (setFileError MSG_UNSUPPORTED) w
    else
      let w := render (setFile (Some selectedFile)) w in
      let w := render (setFileLanguage (language_of ext)) w in
      emit (FxReadAsText selectedFile) w.

(** [reader.onload] *)
Definition reader_onload (content : string) (w : World) : World :=
  render (setFileContent content) (emit FxReadSettled w).

(** [reader.onerror] *)
Definition reader_onerror (w : World) : World :=
  render (setFileError MSG_READ_ERROR) (emit FxReadSettled w).

Definition reader_settle (o : ReadOutcome) (w : World) : World :=
  match o with
  | ReadLoaded content => reader_onload content w
  | ReadFailed => reader_onerror w
  end.

(** Whether [handleFileChange] gets as far as starting a read. *)
Definition passes_validation (f : File) : bool :=
  negb (MAX_FILE_SIZE <? size f)%N
  && Js.includes supported_keys (fileExtension f).

(** The whole ingestion of one file: [handleFileChange] and, when it
    started a read, the callback the reader ends with. *)
Definition ingest (f : File) (o : ReadOutcome) (w : World) : World :=
  let w' := handleFileChange f w in
  if passes_validation f then reader_settle o w' else w'.

Definition handleDrag (kind : DragKind) (w : World) : World :=
  match kind with
  | DragEnter | DragOver => render (setDragActive true) w
  | DragLeave => render (setDragActive false) w
  | DragOther => w
  end.

(** Only the first of the dropped files is used. *)
Definition handleDrop (files : list File) (w : World) : World :=
  let w := render (setDragActive false) w in
  match files with
  | f :: _ => handleFileChange f w
  | [] => w
  end.

Definition handleInputChange (files : list File) (w : World) : World :=
  match files with
  | f :: _ => handleFileChange f w
  | [] => w
  end.

Definition handleClearFile (w : World) : World :=
  let w := render (setFile None) w in
  let w := render (setFileContent "") w in
  let w := render (setFileLanguage "") w in
  let w := render (setAnalysisResults None) w in
  let w := render (setAnalysisError "") w in
  emit FxResetFileInput w.

(** The state in which the component holds no ingested file: the one it
    starts in, and the one [handleClearFile] returns it to. *)
Definition no_ingested_file (s : State number) : Prop :=
  file s = None /\ fileContent s = "" /\ fileLanguage s = "".

(** No component of the ingested file differs between two states. *)
Definition same_ingested_file (s s' : State number) : Prop :=
  file s' = file s /\ fileContent s' = fileContent s
  /\ fileLanguage s' = fileLanguage s.

End FileIntake.

(** ** Analysis client *)

Section Analysis.

Context {number : Type} `{Platform number}.
Local Abbreviation World := (World number).
Local Abbreviation json := (json number).

Definition LF : string := String "010"%char "".

Definition FENCE_OPEN : string := "```json" ++ LF.

Definition FENCE_CLOSE : string := LF ++ "```".

(** [text.match(/```json\n([\s\S]*?)\n```/)]: the leftmost opening fence
    that a closing fence follows, and the shortest text up to a closing
    fence.  When the first opening fence has no closing fence after it, no
    later one has. *)
Definition match_fenced (text : string) : option Match :=
  match Js.cut FENCE_OPEN text with
  | Some (_, rest) =>
      match Js.cut FENCE_CLOSE rest with
      | Some (inner, _) =>
          Some (mkMatch (FENCE_OPEN ++ inner ++ FENCE_CLOSE) (Some inner))
      | None => None
      end
  | None => None
  end.

(** [text.match(/{[\s\S]*}/)]: from the leftmost opening brace to the last
    closing brace after it (the star is greedy); the pattern has no group. *)
Definition match_braces (text : string) : option Match :=
  match Js.cut "{" text with
  | Some (_, rest) =>
      match Js.upto_last "}" rest with
      | Some inner => Some (mkMatch ("{" ++ inner ++ "}") None)
      | None => None
      end
  | None => None
  end.

(** [a || b] on match results: an array is truthy, [null] is not. *)
Definition jsonMatch (resultText : string) : option Match :=
  match match_fenced resultText with
  | Some m => Some m
  | None => match_braces resultText
  end.

(** [jsonMatch ? jsonMatch[1] || jsonMatch[0] : resultText] *)
Definition jsonContent (resultText : string) : string :=
  match jsonMatch resultText with
  | Some m =>
      match group1 m with
      | Some g => if Js.falsy g then whole m else g
      | None => whole m
      end
  | None => resultText
  end.

(** Reading a property that no prototype defines ([choices], [message],
    [content]).  The outer [None] is the TypeError of reading a property of
    [undefined] or [null]; the inner [None] is the value [undefined]. *)
Definition get_named (k : string) (v : option json) : option (option json) :=
  match v with
  | None | Some JNull => None
  | Some (JObj members) => Some (snd <$> List.find (fun kv => String.eqb k (fst kv)) members)
  | Some _ => Some None
  end.

(** Reading the index [0]: the first element of an array, the first
    character of a string, the member named 0 of an object. *)
Definition get_index0 (v : option json) : option (option json) :=
  match v with
  | None | Some JNull => None
  | Some (JArr items) => Some (List.hd_error items)
  | Some (JStr s) =>
      Some (match s with
            | EmptyString => None
            | String c _ => Some (JStr (String c EmptyString))
            end)
  | Some (JObj members) => Some (snd <$> List.find (fun kv => String.eqb "0" (fst kv)) members)
  | Some _ => Some None
  end.

(** [data.choices[0].message.content], as far as the call of [match] on it:
    [None] when reading it throws or when it is not a string (only strings
    have the method). *)
Definition reply_text (data : json) : option string :=
  choices ← get_named "choices" (Some data);
  first ← get_index0 choices;
  message ← get_named "message" first;
  content ← get_named "content" message;
  match content with
  | Some (JStr resultText) => Some resultText
  | _ => None
  end.

Definition build_request (s : State number) : Request :=
  {| url := API_URL;
     method := "POST";
     content_type := "application/json";
     authorization := "Bearer " ++ apiKey s;
     model := "deepseek-coder";
     system_language := fileLanguage s;
     user_content := fileContent s;
     temperature_tenths := 1;
     max_tokens := 4000 |}.

(** [analyzeCode] up to its first [await]: the two guards, the three state
    updates, the call of [fetch]. *)
Definition analyzeCode (w : World) : World :=
  if Js.falsy (apiKey (ui w)) then
    render (setAnalysisError MSG_NO_KEY) w
  else if Js.falsy (fileContent (ui w)) then
    render (setAnalysisError MSG_NO_FILE) w
  else
    let w := render (setIsAnalyzing true) w in
    let w := render (setAnalysisError "") w in
    let w := render (setAnalysisResults None) w in
    emit (FxFetch (build_request (ui w))) w.

(** The message the outer [catch] shows for what it caught. *)
Definition analysis_error_message (e : Thrown) : string :=
  "Error analyzing code: " ++
  match e with
  | ErrorObj message => message
  | NonError => "Unknown error"
  end.

(** The outer [catch]. *)
Definition catch_analysis (e : Thrown) (w : World) : World :=
  render (setAnalysisError (analysis_error_message e)) w.

(** The inner [try]: everything that throws in it ends in the inner
    [catch]. *)
Definition parse_reply (data : json) (w : World) : World :=
  match reply_text data with
  | Some resultText =>
      let content := jsonContent resultText in
      let w := emit (FxJsonParse content) w in
      match JSON_parse content with
      | Some parsedResults => render (setAnalysisResults (Some parsedResults)) w
      | None => render (setAnalysisError MSG_PARSE_ERROR) w
      end
  | None => render (setAnalysisError MSG_PARSE_ERROR) w
  end.

(** The message of the Error thrown on a response that is not ok. *)
Definition api_error (r : Response number) : string :=
  "API error: " ++ pretty (status r) ++ " " ++ statusText r.

(** The [finally] block. *)
Definition finally_analysis (w : World) : World :=
  render (setIsAnalyzing false) w.

(** The rest of [analyzeCode], run when the promise of [fetch] settles. *)
Definition analyzeCode_resume (o : FetchOutcome number) (w : World) : World :=
  let w := emit FxFetchSettled w in
  finally_analysis
    match o with
    | FetchRejects e => catch_analysis e w
    | FetchResponds r =>
        if negb (ok r) then catch_analysis (ErrorObj (api_error r)) w
        else
          let w := emit FxBodyJson w in
          match body r with
          | BodyRejects e => catch_analysis e w
          | BodyJson data => parse_reply data w
          end
    end.

(** The whole of [analyzeCode] for a request that settles with [o]; when a
    guard stops it there is no request and nothing to settle. *)
Definition analyze (o : FetchOutcome number) (w : World) : World :=
  if Js.falsy (apiKey (ui w)) || Js.falsy (fileContent (ui w))
  then analyzeCode w
  else analyzeCode_resume o (analyzeCode w).

(** *** What the two patterns select, said on the text itself *)

(** No occurrence of [pat] in [s] starts before the end of [before]. *)
Definition leftmost (pat before s : string) : Prop :=
  forall before' after' : string,
    s = before' ++ pat ++ after' ->
    String.length before <= String.length before'.

Definition has_fenced_block (text : string) : Prop :=
  exists pre inner post : string,
    text = pre ++ FENCE_OPEN ++ inner ++ FENCE_CLOSE ++ post.

Definition has_braces (text : string) : Prop :=
  exists pre inner post : string,
    text = pre ++ "{" ++ inner ++ "}" ++ post.

Definition lacks (c : ascii) (s : string) : Prop :=
  ~ In c (list_ascii_of_string s).

(** [Located text span]: [span] is the payload of [text].  With a fenced
    block in the text it is the inside of the first one, up to the first
    closing fence, or the block with its fences when the inside is empty.
    Without a fenced block it runs from the first opening brace to the last
    closing brace, when a closing brace follows an opening one.  Otherwise
    it is the text. *)
Inductive Located (text : string) : string -> Prop :=
| LocatedFenced (pre inner post : string) :
    text = pre ++ FENCE_OPEN ++ inner ++ FENCE_CLOSE ++ post ->
    leftmost FENCE_OPEN pre text ->
    leftmost FENCE_CLOSE inner (inner ++ FENCE_CLOSE ++ post) ->
    inner <> "" ->
    Located text inner
| LocatedEmptyFence (pre post : string) :
    text = pre ++ FENCE_OPEN ++ FENCE_CLOSE ++ post ->
    leftmost FENCE_OPEN pre text ->
    Located text (FENCE_OPEN ++ FENCE_CLOSE)
| LocatedBraces (pre inner post : string) :
    ~ has_fenced_block text ->
    text = pre ++ "{" ++ inner ++ "}" ++ post ->
    lacks "{" pre ->
    lacks "}" post ->
    Located text ("{" ++ inner ++ "}")
| LocatedWhole :
    ~ has_fenced_block text ->
    ~ has_braces text ->
    Located text text.

(** *** The payload as the specification words it

    These three definitions follow the specification, not the code; they
    are what [jsonContent] is compared with. *)

(** The text of a brace span from just after its opening brace to the
    closing brace that balances it; [depth] counts the braces opened
    inside and not yet closed. *)
Fixpoint spec_balanced (depth : nat) (s : string) : option string :=
  match s with
  | EmptyString => None
  | String c s' =>
      if Ascii.eqb c "{" then
        option_map (String c) (spec_balanced (S depth) s')
      else if Ascii.eqb c "}" then
        match depth with
        | O => Some (String c EmptyString)
        | S depth' => option_map (String c) (spec_balanced depth' s')
        end
      else option_map (String c) (spec_balanced depth s')
  end.

(** In the words of the specification, the first top-level brace span of
    the text: from the first opening brace to the closing brace that
    balances it. *)
Definition spec_first_top_level_span (text : string) : option string :=
  match Js.cut "{" text with
  | Some (_, rest) => option_map (String "{") (spec_balanced 0 rest)
  | None => None
  end.

(** In the words of the specification, the payload: the inside of a
    fenced block labeled json; if absent, the first top-level brace span;
    if neither matches, the entire reply text. *)
Definition spec_payload (text : string) : string :=
  match match_fenced text with
  | Some m => match group1 m with Some inner => inner | None => whole m end
  | None =>
      match spec_first_top_level_span text with
      | Some span => span
      | None => text
      end
  end.

(** [disabled] of the Analyze button. *)
Definition analyze_disabled (s : State number) : bool :=
  Js.falsy (fileContent s) || Js.falsy (apiKey s) || isAnalyzing s.

(** A click on the Analyze button: a disabled button fires no handler. *)
Definition clickAnalyze (w : World) : World :=
  if analyze_disabled (ui w) then w else analyzeCode w.

End Analysis.

(** ** The component as a transition system *)

Section Events.

Context {number : Type} `{Platform number}.
Local Abbreviation World := (World number).

(** What can happen to the mounted component: the user acts on a control,
    or the platform answers a call that is under way. *)
Inductive Event :=
| EvChangeApiKey (value : string)
| EvToggleShowApiKey
| EvClearApiKey
| EvDrag (kind : DragKind)
| EvDrop (files : list File)
| EvInputChange (files : list File)
| EvClearFile
| EvReaderSettles (o : ReadOutcome)
| EvClickAnalyze
| EvFetchSettles (o : FetchOutcome number).

Definition is_fetch (e : Effect) : bool :=
  match e with FxFetch _ => true | _ => false end.

Definition is_fetch_settled (e : Effect) : bool :=
  match e with FxFetchSettled => true | _ => false end.

Definition is_read (e : Effect) : bool :=
  match e with FxReadAsText _ => true | _ => false end.

Definition is_read_settled (e : Effect) : bool :=
  match e with FxReadSettled => true | _ => false end.

Definition count_fx (p : Effect -> bool) (w : World) : nat :=
  length (List.filter p (effects w)).

(** The requests handed to [fetch] so far, oldest first. *)
Fixpoint requests_of (log : list Effect) : list Request :=
  match log with
  | [] => []
  | FxFetch req :: log' => req :: requests_of log'
  | _ :: log' => requests_of log'
  end.

Definition requests (w : World) : list Request := requests_of (effects w).

(** Network calls made and not yet answered. *)
Definition in_flight (w : World) : nat :=
  count_fx is_fetch w - count_fx is_fetch_settled w.

(** File reads started and not yet ended. *)
Definition reading (w : World) : nat :=
  count_fx is_read w - count_fx is_read_settled w.

(** One event: its handler, then the render and the effects it causes.  An
    answer of the platform happens only to a call that is under way.  What
    the render shows is not part of the world: when the result that is
    held makes the results panel throw while rendering ([panel_reads]),
    the component of the source is unmounted and takes no further event,
    so the states of the model are those of the source and more. *)
Definition step (e : Event) (w : World) : World :=
  commit w
    match e with
    | EvChangeApiKey value => changeApiKey value w
    | EvToggleShowApiKey => toggleShowApiKey w
    | EvClearApiKey => handleClearApiKey w
    | EvDrag kind => handleDrag kind w
    | EvDrop files => handleDrop files w
    | EvInputChange files => handleInputChange files w
    | EvClearFile => handleClearFile w
    | EvReaderSettles o =>
        if Nat.ltb 0 (reading w) then reader_settle o w else w
    | EvClickAnalyze => clickAnalyze w
    | EvFetchSettles o =>
        if Nat.ltb 0 (in_flight w) then analyzeCode_resume o w else w
    end.

Definition run (events : list Event) (w : World) : World :=
  fold_left (fun w e => step e w) events w.

(** The operations of the credential store, as the user performs them. *)
Definition credential_set (value : string) (w : World) : World :=
  step (EvChangeApiKey value) w.

Definition credential_clear (w : World) : World :=
  step EvClearApiKey w.

(** A restart: the React state is gone, the store is what it was. *)
Definition restart (w : World) : World :=
  boot (localStorage w).

(** A key that is held is the key that is stored. *)
Definition key_is_stored (w : World) : Prop :=
  apiKey (ui w) <> "" -> getItem STORAGE_KEY w = Some (apiKey (ui w)).

(** What a handler does to the part of the world the flag is about: the
    two counts, the flag, the result. *)
Definition request_view (w : World) : nat * nat * bool * option (json number) :=
  (count_fx is_fetch w, count_fx is_fetch_settled w,
   isAnalyzing (ui w), analysisResults (ui w)).

(** While the flag is up exactly one request is under way and no result
    is held; while it is down no request is under way. *)
Definition flag_tracks_request (w : World) : Prop :=
  count_fx is_fetch w
  = count_fx is_fetch_settled w + Nat.b2n (isAnalyzing (ui w))
  /\ (isAnalyzing (ui w) = true -> analysisResults (ui w) = None).

End Events.

Arguments Event : clear implicits.

(** ** A platform to run the examples on

    Numbers are integers, and [JSON.parse] is given on the texts the
    examples hand to it; these are its values on them. *)

Definition DQ : string := String "034"%char "".

(** The text [{"issues":[]}] and the value it denotes. *)
Definition sample_result_text : string :=
  "{" ++ DQ ++ "issues" ++ DQ ++ ":[]}".

Definition sample_result : json Z := JObj [("issues", JArr [])].

(** [JSON.parse] on [{"issues":[]}], [{}] and [null]; no example hands it
    another well-formed text, and every other text is refused. *)
Definition sample_JSON_parse (text : string) : option (json Z) :=
  if String.eqb text sample_result_text then Some sample_result
  else if String.eqb text "{}" then Some (JObj [])
  else if String.eqb text "null" then Some JNull
  else None.

#[export] Instance sample_platform : Platform Z :=
  {| JSON_parse := sample_JSON_parse |}.

(** The response envelope [{"choices":[{"message":{"content": text}}]}]. *)
Definition envelope (text : string) : json Z :=
  JObj [("choices", JArr [JObj [("message", JObj [("content", JStr text)])]])].

Definition respond (code : N) (reason : string) (text : string)
  : FetchOutcome Z :=
  FetchResponds (mkResponse code reason (BodyJson (envelope text))).

(** A reply with two brace spans: [{"issues":[]} and {}]. *)
Definition two_spans_text : string := sample_result_text ++ " and {}".

Definition a_py : File := mkFile "a.py" 120.

Definition b_js : File := mkFile "b.js" 64.

(** A session that reaches a displayed result: a key is typed, [a.py] is
    dropped and read, Analyze is clicked, and the service answers with
    [sample_result_text]. *)
Definition session_with_result : list (Event Z) :=
  [ EvChangeApiKey "sk-abc";
    EvDrop [a_py];
    EvReaderSettles (ReadLoaded "print(1)");
    EvClickAnalyze;
    EvFetchSettles (respond 200 "OK" sample_result_text) ].

(** The same session up to the click: the request is under way. *)
Definition session_pending : list (Event Z) :=
  [ EvChangeApiKey "sk-abc";
    EvDrop [a_py];
    EvReaderSettles (ReadLoaded "print(1)");
    EvClickAnalyze ].

(** ** The results panel and the export

    What the component does with a result that is held: the property reads
    of the results panel in the JSX of [src/src/App.tsx], and
    [downloadResults]. *)

Section Display.

Context {number : Type}.
Local Abbreviation json := (json number).

(** The member of an object named [k], as [get_named] and [get_index0]
    look it up. *)
Definition member (k : string) (members : list (string * json))
  : option json :=
  snd <$> List.find (fun kv => String.eqb k (fst kv)) members.

(** The fields [analysisResults.summary.X] the summary card reads, in the
    order of the JSX; the score is read for the text and for the width of
    the bar. *)
Definition SUMMARY_READS : list string :=
  [ "totalIssues"; "syntaxErrors"; "logicIssues"; "qualityIssues";
    "securityIssues"; "performanceIssues"; "overallScore"; "overallScore" ].

(** The fields [issue.X] an issue card reads, in the order of their first
    read. *)
Definition ISSUE_READS : list string :=
  [ "id"; "severity"; "category"; "lineNumber"; "description";
    "suggestion"; "codeExample" ].

(** [analysisResults.summary.k]: each read goes through [summary] again. *)
Definition read_summary (results : json) (k : string)
  : option (option json) :=
  summary ← get_named "summary" (Some results);
  get_named k summary.

Definition read_issue (issue : json) : option (list (option json)) :=
  mapM (fun k => get_named k (Some issue)) ISSUE_READS.

(** The property reads of the results panel for a result that is shown:
    the summary card, then [analysisResults.issues.map] over the issue
    cards.  [None] when a read throws a TypeError: a property of
    [undefined] or [null] is read, or [issues] has no [map] to call (only
    arrays have one).  What is read is returned; how React shows it is not
    modelled. *)
Definition panel_reads (results : json)
  : option (list (option json) * list (list (option json))) :=
  summary ← mapM (read_summary results) SUMMARY_READS;
  issues ← get_named "issues" (Some results);
  match issues with
  | Some (JArr items) =>
      cards ← mapM read_issue items;
      Some (summary, cards)
  | _ => None
  end.

(** The results for which no read of the panel throws. *)
Definition panel_shape (results : json) : Prop :=
  exists members summary items,
    results = JObj members
    /\ member "summary" members = Some summary
    /\ summary <> JNull
    /\ member "issues" members = Some (JArr items)
    /\ Forall (fun issue => issue <> JNull) items.

(** The envelopes from which [reply_text] reads a reply: [choices] is an
    array, or an object with a member named 0. *)
Definition envelope_shape (data : json) (text : string) : Prop :=
  exists members choices first_members message_members,
    data = JObj members
    /\ member "choices" members = Some choices
    /\ (match choices with
        | JArr items => List.hd_error items
        | JObj choice_members => member "0" choice_members
        | _ => None
        end) = Some (JObj first_members)
    /\ member "message" first_members = Some (JObj message_members)
    /\ member "content" message_members = Some (JStr text).

(** What [JSON.stringify], [encodeURIComponent] and the truth value of a
    number are is the browser's. *)
Class Exporter := {
  JSON_stringify : json -> string;
  encodeURIComponent : string -> string;
  number_falsy : number -> bool
}.

Context `{Exporter}.

(** [!v] for a value that is held ([null] is held as no value). *)
Definition json_falsy (v : json) : bool :=
  match v with
  | JNull => true
  | JBool b => negb b
  | JNum n => number_falsy n
  | JStr s => Js.falsy s
  | JArr _ | JObj _ => false
  end.

(** The link [downloadResults] creates and clicks. *)
Record Download := mkDownload { href : string; exportName : string }.

(** [downloadResults]: [None] when it returns at its guard.  It sets no
    state. *)
Definition downloadResults (s : State number) : option Download :=
  match analysisResults s with
  | None => None
  | Some results =>
      if json_falsy results then None
      else
        let dataStr := JSON_stringify results in
        let dataUri :=
          "data:application/json;charset=utf-8," ++ encodeURIComponent dataStr
        in
        let base :=
          match file s with
          | Some f => if Js.falsy (name f) then "results" else name f
          | None => "results"
          end in
        Some (mkDownload dataUri ("code-review-" ++ base ++ ".json"))
  end.

End Display.

Arguments Exporter : clear implicits.
Arguments Download : clear implicits.

(** ** What holds of every request *)

(** A request as [analyzeCode] builds it from a key and a file text that
    pass its guards. *)
Definition well_formed_request (req : Request) : Prop :=
  url req = API_URL
  /\ method req = "POST"
  /\ content_type req = "application/json"
  /\ model req = "deepseek-coder"
  /\ temperature_tenths req = 1%N
  /\ max_tokens req = 4000%N
  /\ user_content req <> ""
  /\ exists key, key <> "" /\ authorization req = "Bearer " ++ key.

(** A result and an analysis error are not held together; while the flag
    is up neither is held. *)
Definition result_excludes_error {number : Type} (w : World number) : Prop :=
  (isAnalyzing (ui w) = true ->
   analysisResults (ui w) = None /\ analysisError (ui w) = "")
  /\ (analysisResults (ui w) = None \/ analysisError (ui w) = "").

(** A stand-in for the export functions on the sample platform: the
    examples only look at the name of the export. *)
#[export] Instance sample_exporter : Exporter Z :=
  {| JSON_stringify := fun _ => sample_result_text;
     encodeURIComponent := fun text => text;
     number_falsy := Z.eqb 0 |}.

(** ** The extension, said on the name itself *)

(** [folds_to c c']: [c] is an ASCII character and [c'] is its lowercase
    form: a letter A-Z goes to the letter a-z, every other ASCII character
    stays. *)
Inductive folds_to : ascii -> ascii -> Prop :=
| folds_upper (c : ascii) :
    (65 <= N_of_ascii c <= 90)%N ->
    folds_to c (ascii_of_N (N_of_ascii c + 32))
| folds_other (c : ascii) :
    (N_of_ascii c < 65 \/ 90 < N_of_ascii c)%N ->
    (N_of_ascii c < 128)%N ->
    folds_to c c.

(** [lowercase_of s k]: [s] is ASCII text and [k] is [s] in lowercase. *)
Inductive lowercase_of : string -> string -> Prop :=
| lowercase_nil : lowercase_of "" ""
| lowercase_cons (c c' : ascii) (s s' : string) :
    folds_to c c' -> lowercase_of s s' ->
    lowercase_of (String c s) (String c' s').

(** [last_segment_of n seg]: [seg] is the text after the last dot of the
    name [n], or the whole of [n] when [n] has no dot. *)
Definition last_segment_of (n seg : string) : Prop :=
  lacks "." seg /\ (n = seg \/ exists stem, n = stem ++ "." ++ seg).

(** ** A result the panel can show

    A second table for [JSON.parse], with the text of a result that has a
    summary and a list of issues. *)







(** * Properties *)

(** ** Strings *)

Lemma append_nil_l (s : string) : "" ++ s = s.
Proof. reflexivity. Qed.

Lemma append_cons (c : ascii) (a b : string) :
  String c a ++ b = String c (a ++ b).
Proof. reflexivity. Qed.

Lemma append_nil_r (s : string) : s ++ "" = s.
Proof.
  induction s as [|c s IH]; [reflexivity|].
  now rewrite append_cons, IH.
Qed.

Lemma append_assoc (a b c : string) : (a ++ b) ++ c = a ++ (b ++ c).
Proof.
  induction a as [|x a IH]; [reflexivity|].
  now rewrite !append_cons, IH.
Qed.

Lemma length_append (a b : string) :
  String.length (a ++ b) = String.length a + String.length b.
Proof.
  induction a as [|x a IH]; [reflexivity|].
  rewrite append_cons. simpl. now rewrite IH.
Qed.

Lemma falsy_empty (s : string) : Js.falsy s = true <-> s = "".
Proof. destruct s; simpl; split; congruence. Qed.

Lemma falsy_nonempty (s : string) : Js.falsy s = false <-> s <> "".
Proof. destruct s; simpl; split; congruence. Qed.

Lemma includes_In (a : list string) (x : string) :
  Js.includes a x = true <-> In x a.
Proof.
  unfold Js.includes. rewrite existsb_exists. split.
  - intros (y & Hy & Heq). apply String.eqb_eq in Heq. now subst.
  - intros Hin. exists x. split; [assumption | apply String.eqb_refl].
Qed.

Lemma includes_not_In (a : list string) (x : string) :
  Js.includes a x = false <-> ~ In x a.
Proof.
  rewrite <- includes_In. destruct (Js.includes a x); split; congruence.
Qed.

(** A name without the separator is the only segment [split] returns, and
    so what [pop] takes. *)
Lemma split_without_separator (c : ascii) (s : string) :
  ~ In c (list_ascii_of_string s) -> Js.split c s = [s].
Proof.
  induction s as [|a s IH]; intros Hnot; [reflexivity|].
  simpl in *.
  destruct (Ascii.eqb_spec a c) as [->|Hne].
  - exfalso. apply Hnot. now left.
  - rewrite IH; [reflexivity|]. intros Hin. apply Hnot. now right.
Qed.

Lemma split_nonempty (c : ascii) (s : string) : Js.split c s <> [].
Proof.
  destruct s as [|a s]; simpl; [discriminate|].
  destruct (Ascii.eqb a c); [discriminate|].
  destruct (Js.split c s); discriminate.
Qed.

(** Splitting distributes over a separator in the text. *)
Lemma split_at_separator (c : ascii) (a b : string) :
  Js.split c (a ++ String c b) = (Js.split c a ++ Js.split c b)%list.
Proof.
  induction a as [|x a IH].
  - rewrite append_nil_l. simpl. now rewrite Ascii.eqb_refl.
  - rewrite append_cons. simpl. rewrite IH.
    destruct (Ascii.eqb x c); [reflexivity|].
    pose proof (split_nonempty c a) as Hne.
    destruct (Js.split c a) as [|seg segs]; [contradiction | reflexivity].
Qed.

Lemma pop_last (a : list string) (x : string) :
  Js.pop (a ++ [x])%list = Some x.
Proof.
  induction a as [|y a IH]; [reflexivity|].
  simpl. destruct (a ++ [x])%list eqn:Happ; [|exact IH].
  now destruct a.
Qed.

(** ** File intake *)

(** For a key of the table, the label that is installed is the one the
    table maps the key to; the fallback label is never used. *)
Lemma language_of_key (ext : string) :
  In ext supported_keys ->
  Some (language_of ext) = table_get SUPPORTED_EXTENSIONS ext.
Proof.
  intros Hin. simpl in Hin.
  repeat (destruct Hin as [<- | Hin]; [reflexivity|]).
  contradiction.
Qed.

Section IntakeProperties.

Context {number : Type}.
Local Abbreviation World := (World number).

Lemma same_ingested_file_none (s s' : State number) :
  same_ingested_file s s' -> no_ingested_file s -> no_ingested_file s'.
Proof.
  intros (Hf & Hc & Hl) (Hf0 & Hc0 & Hl0).
  unfold no_ingested_file. rewrite Hf, Hc, Hl. auto.
Qed.

Lemma handleFileChange_too_large (f : File) (w : World) :
  (MAX_FILE_SIZE < size f)%N ->
  handleFileChange f w = render (setFileError MSG_TOO_LARGE) w.
Proof.
  intros Hbig. unfold handleFileChange.
  apply N.ltb_lt in Hbig. rewrite Hbig. reflexivity.
Qed.

Lemma handleFileChange_unsupported (f : File) (w : World) :
  (size f <= MAX_FILE_SIZE)%N ->
  ~ In (fileExtension f) supported_keys ->
  handleFileChange f w = render (setFileError MSG_UNSUPPORTED) w.
Proof.
  intros Hsmall Hext. unfold handleFileChange.
  apply N.ltb_ge in Hsmall. rewrite Hsmall.
  apply includes_not_In in Hext. rewrite Hext. reflexivity.
Qed.

Lemma handleFileChange_accepted (f : File) (w : World) :
  (size f <= MAX_FILE_SIZE)%N ->
  In (fileExtension f) supported_keys ->
  handleFileChange f w =
  emit (FxReadAsText f)
    (render (setFileLanguage (language_of (fileExtension f)))
       (render (setFile (Some f)) (render (setFileError "") w))).
Proof.
  intros Hsmall Hext. unfold handleFileChange.
  apply N.ltb_ge in Hsmall. rewrite Hsmall.
  apply includes_In in Hext. rewrite Hext. reflexivity.
Qed.

Lemma passes_validation_iff (f : File) :
  passes_validation f = true <->
  (size f <= MAX_FILE_SIZE)%N /\ In (fileExtension f) supported_keys.
Proof.
  unfold passes_validation.
  rewrite andb_true_iff, negb_true_iff, N.ltb_ge, includes_In. tauto.
Qed.

Lemma passes_validation_false (f : File) :
  passes_validation f = false <->
  (MAX_FILE_SIZE < size f)%N \/ ~ In (fileExtension f) supported_keys.
Proof.
  unfold passes_validation.
  rewrite andb_false_iff, negb_false_iff, N.ltb_lt, includes_not_In. tauto.
Qed.

End IntakeProperties.

(** C9. A file of more than 5,242,880 bytes is rejected whatever its name
    and whatever the reader would have produced: no component of the
    ingested file changes (so none is installed, and a component that holds
    no file still holds none), no read is started, and the file error is
    exactly the size-limit message.  The threshold is hard: such a file
    never passes validation. *)
Theorem C9_oversized_file_rejected {number : Type}
    (f : File) (o : ReadOutcome) (w : World number) :
  (5242880 < size f)%N ->
  let w' := ingest f o w in
  same_ingested_file (ui w) (ui w')
  /\ (no_ingested_file (ui w) -> no_ingested_file (ui w'))
  /\ fileError (ui w') = MSG_TOO_LARGE
  /\ effects w' = effects w
  /\ passes_validation f = false.
Proof.
  intros Hbig w'.
  assert (Hrej : passes_validation f = false).
  { apply passes_validation_false. now left. }
  assert (Hw' : w' = render (setFileError MSG_TOO_LARGE) w).
  { subst w'. unfold ingest. rewrite Hrej.
    now apply handleFileChange_too_large. }
  assert (Hsame : same_ingested_file (ui w) (ui w')).
  { rewrite Hw'. repeat split. }
  split; [exact Hsame|].
  split; [now apply same_ingested_file_none|].
  rewrite Hw'. repeat split. exact Hrej.
Qed.

Lemma C9_witness :
  (5242880 < size (mkFile "big.py" 5242881))%N
  /\ fileError
       (ui (ingest (mkFile "big.py" 5242881) (ReadLoaded "x = 1")
              (boot (number := Z) ∅)))
     = MSG_TOO_LARGE.
Proof.
  assert (Hbig : (5242880 < size (mkFile "big.py" 5242881))%N)
    by reflexivity.
  split; [exact Hbig|].
  exact (proj1 (proj2 (proj2
           (C9_oversized_file_rejected (mkFile "big.py" 5242881)
              (ReadLoaded "x = 1") (boot (number := Z) ∅) Hbig)))).
Defined.

(** The size check is strict: a file of exactly 5,242,880 bytes with a
    supported extension is accepted. *)
Example size_limit_is_inclusive :
  passes_validation (mkFile "edge.py" 5242880) = true
  /\ passes_validation (mkFile "edge.py" 5242881) = false.
Proof. split; reflexivity. Qed.


Lemma folds_to_lower (c c' : ascii) : folds_to c c' -> Js.lower c = c'.
Proof.
  intros [c0 [Hlo Hhi] | c0 Hout Hascii]; unfold Js.lower; cbv zeta.
  - apply N.leb_le in Hlo, Hhi. now rewrite Hlo, Hhi.
  - destruct Hout as [Hlt | Hgt].
    + apply N.leb_gt in Hlt. now rewrite Hlt.
    + apply N.leb_gt in Hgt. now rewrite Hgt, andb_false_r.
Qed.

(** On ASCII text [toLowerCase] gives the lowercase form. *)
Lemma lowercase_of_toLowerCase (s k : string) :
  lowercase_of s k -> Js.toLowerCase s = k.
Proof.
  induction 1 as [|c c' s s' Hc Hs IH]; [reflexivity|].
  simpl. now rewrite (folds_to_lower c c' Hc), IH.
Qed.

Lemma ascii_lowercase (s : string) :
  Forall (fun c => (N_of_ascii c < 128)%N) (list_ascii_of_string s) ->
  lowercase_of s (Js.toLowerCase s).
Proof.
  induction s as [|c s IH]; simpl; intros Hall; [constructor|].
  apply Forall_cons_iff in Hall as [Hc Hs].
  constructor; [|now apply IH].
  unfold Js.lower. cbv zeta.
  destruct (65 <=? N_of_ascii c)%N eqn:Hlo;
    [destruct (N_of_ascii c <=? 90)%N eqn:Hhi|]; simpl.
  - apply folds_upper. apply N.leb_le in Hlo, Hhi. now split.
  - apply folds_other; [right; now apply N.leb_gt | exact Hc].
  - apply folds_other; [left; now apply N.leb_gt | exact Hc].
Qed.

(** The extension that is checked is the last segment of the name in
    lowercase, behind a dot. *)
Lemma last_segment_extension (f : File) (seg k : string) :
  last_segment_of (name f) seg -> lowercase_of seg k ->
  fileExtension f = "." ++ k.
Proof.
  intros [Hseg Hname] Hk. unfold fileExtension.
  apply lowercase_of_toLowerCase in Hk.
  destruct Hname as [-> | [stem ->]].
  - rewrite (split_without_separator _ _ Hseg). simpl. now rewrite Hk.
  - change (stem ++ "." ++ seg) with (stem ++ String "." seg).
    rewrite split_at_separator, (split_without_separator _ _ Hseg).
    rewrite pop_last. now rewrite Hk.
Qed.



(** For a name without a dot the extension that is checked is a dot
    followed by the whole lowercased name. *)
Lemma dotless_extension (f : File) :
  ~ In "."%char (list_ascii_of_string (name f)) ->
  fileExtension f = "." ++ Js.toLowerCase (name f).
Proof.
  intros Hdot. unfold fileExtension.
  now rewrite (split_without_separator _ _ Hdot).
Qed.

(** C10.  A file whose name has no dot is rejected as long as its
    lowercased name is not one of the extension words; but a file named
    [py] (no dot, within the size limit) gets the extension [.py], passes
    validation and is installed as a Python file, with no error. *)
Theorem C10_dotless_name_accepted :
  let f := mkFile "py" 120 in
  let w' := ingest f (ReadLoaded "print(1)") (boot (number := Z) ∅) in
  ~ In "."%char (list_ascii_of_string (name f))
  /\ (size f <= MAX_FILE_SIZE)%N
  /\ fileExtension f = ".py"
  /\ passes_validation f = true
  /\ file (ui w') = Some f
  /\ fileLanguage (ui w') = "Python"
  /\ fileContent (ui w') = "print(1)"
  /\ fileError (ui w') = "".
Proof.
  cbv zeta. split.
  - simpl. intros [Hp | [Hy | []]]; discriminate.
  - split; [vm_compute; discriminate|].
    repeat split.
Qed.

(** An ASCII name without a dot is rejected with the unsupported-type
    error unless it is, in lowercase, one of the extension words of the
    table ([py], [PY], [js], [c], ...). *)
Lemma dotless_name_rejected {number : Type}
    (f : File) (k : string) (o : ReadOutcome) (w : World number) :
  (size f <= MAX_FILE_SIZE)%N ->
  ~ In "."%char (list_ascii_of_string (name f)) ->
  lowercase_of (name f) k ->
  ~ In ("." ++ k) supported_keys ->
  fileError (ui (ingest f o w)) = MSG_UNSUPPORTED
  /\ same_ingested_file (ui w) (ui (ingest f o w)).
Proof.
  intros Hsize Hdot Hk Hkey.
  rewrite <- (lowercase_of_toLowerCase _ _ Hk) in Hkey.
  rewrite <- (dotless_extension f Hdot) in Hkey.
  assert (Hrej : passes_validation f = false).
  { apply passes_validation_false. now right. }
  unfold ingest. rewrite Hrej.
  rewrite (handleFileChange_unsupported f w Hsize Hkey).
  repeat split.
Qed.

(** C4, as stated, fails: [a.py] passes validation, its read fails, and
    the file handle (name and size) and the language label are installed
    all the same. *)
Lemma C4_counterexample :
  let w := boot (number := Z) ∅ in
  let w' := ingest a_py ReadFailed w in
  passes_validation a_py = true
  /\ file (ui w) = None
  /\ fileLanguage (ui w) = ""
  /\ fileError (ui w') = MSG_READ_ERROR
  /\ file (ui w') = Some a_py
  /\ fileLanguage (ui w') = "Python".
Proof. cbv zeta. repeat split. Qed.

(** C4, amended.  When a file passes validation and its read fails, the
    file error is exactly the error-reading-file message, which differs
    from both validation messages, and the decoded text is not installed
    (the file content is what it was).  The file handle, with its name and
    size, and the language label the table gives for the extension were
    installed before the read started, and stay. *)
Theorem C4_decode_failure {number : Type} (f : File) (w : World number) :
  (size f <= 5242880)%N ->
  In (fileExtension f) (map fst SUPPORTED_EXTENSIONS) ->
  let w' := ingest f ReadFailed w in
  fileError (ui w') = MSG_READ_ERROR
  /\ MSG_READ_ERROR <> MSG_TOO_LARGE
  /\ MSG_READ_ERROR <> MSG_UNSUPPORTED
  /\ fileContent (ui w') = fileContent (ui w)
  /\ file (ui w') = Some f
  /\ Some (fileLanguage (ui w'))
     = table_get SUPPORTED_EXTENSIONS (fileExtension f).
Proof.
  intros Hsize Hext w'.
  assert (Hok : passes_validation f = true).
  { apply passes_validation_iff. now split. }
  assert (Hw' : w' = reader_onerror (handleFileChange f w)).
  { subst w'. unfold ingest. now rewrite Hok. }
  rewrite Hw', (handleFileChange_accepted f w Hsize Hext).
  split; [reflexivity|].
  split; [discriminate|].
  split; [intros Heq; vm_compute in Heq; discriminate Heq|].
  split; [reflexivity|].
  split; [reflexivity|].
  now apply language_of_key.
Qed.

Lemma C4_witness :
  (size a_py <= 5242880)%N
  /\ In (fileExtension a_py) (map fst SUPPORTED_EXTENSIONS)
  /\ fileError (ui (ingest a_py ReadFailed (boot (number := Z) ∅)))
     = MSG_READ_ERROR.
Proof.
  assert (Hsize : (size a_py <= 5242880)%N) by (vm_compute; discriminate).
  assert (Hext : In (fileExtension a_py) (map fst SUPPORTED_EXTENSIONS)).
  { apply includes_In. reflexivity. }
  split; [exact Hsize|]. split; [exact Hext|].
  exact (proj1 (C4_decode_failure a_py (boot (number := Z) ∅) Hsize Hext)).
Defined.

(** ** Credential store *)

Section CredentialProperties.

Context {number : Type} `{Platform number}.
Local Abbreviation World := (World number).

Lemma commit_same_key (w w' : World) :
  apiKey (ui w') = apiKey (ui w) -> commit w w' = w'.
Proof. intros Heq. unfold commit. now rewrite Heq, String.eqb_refl. Qed.

Lemma run_snoc (events : list (Event number)) (e : Event number) (w : World) :
  run (events ++ [e]) w = step e (run events w).
Proof. unfold run. now rewrite fold_left_app. Qed.

Ltac split_handler :=
  repeat match goal with
         | |- context [if ?b then _ else _] => destruct b
         | |- context [match ?x with _ => _ end] => destruct x
         end.

(** The answer to a request changes neither the key nor the store. *)
Lemma analyzeCode_resume_credential (o : FetchOutcome number) (w : World) :
  apiKey (ui (analyzeCode_resume o w)) = apiKey (ui w)
  /\ localStorage (analyzeCode_resume o w) = localStorage w.
Proof.
  unfold analyzeCode_resume, parse_reply, catch_analysis.
  split_handler; split; reflexivity.
Qed.

Lemma handleFileChange_credential (f : File) (w : World) :
  apiKey (ui (handleFileChange f w)) = apiKey (ui w)
  /\ localStorage (handleFileChange f w) = localStorage w.
Proof. unfold handleFileChange. split_handler; split; reflexivity. Qed.

(** Apart from the two handlers of the key field, no event changes the key
    or the store. *)
Lemma step_credential (e : Event number) (w : World) :
  (forall value, e <> EvChangeApiKey value) ->
  e <> EvClearApiKey ->
  apiKey (ui (step e w)) = apiKey (ui w)
  /\ localStorage (step e w) = localStorage w.
Proof.
  intros Hchange Hclear.
  assert (Hframe : forall w' : World,
             apiKey (ui w') = apiKey (ui w)
             /\ localStorage w' = localStorage w ->
             apiKey (ui (commit w w')) = apiKey (ui w)
             /\ localStorage (commit w w') = localStorage w).
  { intros w' [Hk Hs]. now rewrite (commit_same_key w w' Hk). }
  unfold step. apply Hframe.
  destruct e as [value| | |kind|files|files| |o| |o].
  - now destruct (Hchange value).
  - split; reflexivity.
  - now destruct Hclear.
  - destruct kind; split; reflexivity.
  - destruct files as [|f files]; [split; reflexivity|].
    apply (handleFileChange_credential f (render (setDragActive false) w)).
  - destruct files as [|f files]; [split; reflexivity|].
    apply handleFileChange_credential.
  - split; reflexivity.
  - destruct (Nat.ltb 0 (reading w)); [|split; reflexivity].
    destruct o; split; reflexivity.
  - unfold clickAnalyze, analyzeCode. split_handler; split; reflexivity.
  - destruct (Nat.ltb 0 (in_flight w)); [|split; reflexivity].
    apply analyzeCode_resume_credential.
Qed.

Lemma boot_key_is_stored (store : gmap string string) :
  key_is_stored (boot (number := number) store).
Proof.
  unfold key_is_stored, boot, mount, page_load, load_effect, getItem. simpl.
  destruct (store !! STORAGE_KEY) as [saved|] eqn:Hsaved; simpl.
  - destruct saved as [|c saved]; simpl.
    + intros Hne. now destruct Hne.
    + intros _. unfold commit, save_effect, setItem. simpl.
      apply lookup_insert_eq.
  - intros Hne. now destruct Hne.
Qed.

Lemma step_key_is_stored (e : Event number) (w : World) :
  key_is_stored w -> key_is_stored (step e w).
Proof.
  intros Hinv.
  destruct e as [value| | |kind|files|files| |o| |o];
    try (match goal with
         | |- key_is_stored (step ?e w) =>
             destruct (step_credential e w) as [Hk Hs];
             [intros value'; discriminate | discriminate |]
         end;
         unfold key_is_stored, getItem in *; rewrite Hk, Hs; exact Hinv).
  - unfold key_is_stored, getItem, step, changeApiKey, commit. simpl.
    destruct (String.eqb_spec value (apiKey (ui w))) as [->|Hne].
    + exact Hinv.
    + destruct value as [|c value]; simpl.
      * intros Hv. now destruct Hv.
      * intros _. apply lookup_insert_eq.
  - unfold key_is_stored, step, handleClearApiKey, commit, save_effect.
    simpl. destruct (apiKey (ui w)); simpl; intros Hne; now destruct Hne.
Qed.

(** Every state the component reaches keeps the key it holds stored. *)
Lemma reachable_key_is_stored
    (store : gmap string string) (events : list (Event number)) :
  key_is_stored (run events (boot store)).
Proof.
  induction events as [|e events IH] using rev_ind.
  - apply boot_key_is_stored.
  - rewrite run_snoc. now apply step_key_is_stored.
Qed.

(** A restart shows the stored key, when there is a non-empty one. *)
Lemma boot_loads_stored (store : gmap string string) (v : string) :
  store !! STORAGE_KEY = Some v -> v <> "" ->
  apiKey (ui (boot (number := number) store)) = v.
Proof.
  intros Hv Hne.
  unfold boot, mount, page_load, load_effect, getItem. simpl. rewrite Hv.
  destruct v as [|c v]; [now destruct Hne|]. reflexivity.
Qed.

Lemma boot_without_stored (store : gmap string string) :
  store !! STORAGE_KEY = None ->
  apiKey (ui (boot (number := number) store)) = "".
Proof.
  intros Hv.
  unfold boot, mount, page_load, load_effect, getItem. simpl. now rewrite Hv.
Qed.

Lemma credential_set_stores (v : string) (w : World) :
  key_is_stored w -> v <> "" ->
  localStorage (credential_set v w) !! STORAGE_KEY = Some v.
Proof.
  intros Hinv Hne.
  unfold credential_set, step, changeApiKey, commit. simpl.
  destruct (String.eqb_spec v (apiKey (ui w))) as [->|Hdiff].
  - now apply Hinv.
  - destruct v as [|c v]; [now destruct Hne|]. simpl.
    apply lookup_insert_eq.
Qed.

Lemma credential_set_empty (w : World) :
  localStorage (credential_set "" w) = localStorage w
  /\ effects (credential_set "" w) = effects w.
Proof.
  unfold credential_set, step, changeApiKey, commit. simpl.
  destruct (apiKey (ui w)); split; reflexivity.
Qed.

Lemma credential_clear_removes (w : World) :
  localStorage (credential_clear w) !! STORAGE_KEY = None
  /\ apiKey (ui (credential_clear w)) = "".
Proof.
  unfold credential_clear, step, handleClearApiKey, commit, save_effect.
  simpl. destruct (apiKey (ui w)); simpl; split;
    first [apply lookup_delete_eq | reflexivity].
Qed.

End CredentialProperties.

(** C5, as stated, fails for the empty value: with [sk-abc] stored,
    setting the key to the empty string writes nothing, and a restart
    brings [sk-abc] back instead of the empty key that was set. *)
Lemma C5_counterexample :
  let w := credential_set "sk-abc" (boot (number := Z) ∅) in
  let w' := credential_set "" w in
  apiKey (ui w') = ""
  /\ localStorage w' !! STORAGE_KEY = Some "sk-abc"
  /\ apiKey (ui (restart w')) = "sk-abc"
  /\ apiKey (ui (restart w')) <> "".
Proof. vm_compute. repeat split. discriminate. Qed.

(** C5, amended.  In every state the component can reach, setting a
    non-empty value [v] and restarting yields [v] as the current
    credential, and clearing and restarting yields none.  Setting the
    empty value writes nothing: the store is left as it was. *)
Theorem C5_credential_round_trip {number : Type} `{Platform number}
    (store : gmap string string) (events : list (Event number))
    (v : string) :
  v <> "" ->
  let w := run events (boot store) in
  apiKey (ui (restart (credential_set v w))) = v
  /\ apiKey (ui (restart (credential_clear w))) = ""
  /\ localStorage (credential_set "" w) = localStorage w.
Proof.
  intros Hv w. split; [|split].
  - unfold restart. apply boot_loads_stored; [|exact Hv].
    apply credential_set_stores; [|exact Hv].
    apply reachable_key_is_stored.
  - unfold restart. apply boot_without_stored.
    apply credential_clear_removes.
  - apply credential_set_empty.
Qed.

Lemma C5_witness :
  "sk-abc" <> ""
  /\ apiKey (ui (restart (credential_set "sk-abc"
                            (run session_with_result (boot ∅)))))
     = "sk-abc".
Proof.
  assert (Hv : "sk-abc" <> "") by discriminate.
  split; [exact Hv|].
  exact (proj1 (C5_credential_round_trip ∅ session_with_result "sk-abc" Hv)).
Defined.

(** The round trip of the specification: [set("sk-abc")], then a fresh
    load, from an empty store. *)
Example credential_round_trip_example :
  apiKey (ui (restart (credential_set "sk-abc" (boot (number := Z) ∅))))
  = "sk-abc"
  /\ apiKey (ui (restart (credential_clear
                            (credential_set "sk-abc" (boot (number := Z) ∅)))))
     = "".
Proof. vm_compute. split; reflexivity. Qed.

(** ** The two patterns of the reply parser *)

Lemma strip_prefix_Some (pat s rest : string) :
  Js.strip_prefix pat s = Some rest <-> s = pat ++ rest.
Proof.
  revert s. induction pat as [|a pat IH]; intros s; simpl.
  - rewrite append_nil_l. split; congruence.
  - destruct s as [|b s]; rewrite append_cons.
    + split; discriminate.
    + destruct (Ascii.eqb_spec a b) as [->|Hne].
      * rewrite IH. split; congruence.
      * split; [discriminate | congruence].
Qed.

(** [cut] splits at an occurrence of the pattern, and at the leftmost. *)
Lemma cut_Some (pat s before after : string) :
  Js.cut pat s = Some (before, after) ->
  s = before ++ pat ++ after
  /\ forall before' after',
       s = before' ++ pat ++ after' ->
       String.length before <= String.length before'.
Proof.
  revert before. induction s as [|c s IH]; intros before; simpl.
  - destruct (Js.strip_prefix pat "") as [rest|] eqn:Hpre; [|discriminate].
    intros [= <- <-]. apply strip_prefix_Some in Hpre.
    split; [exact Hpre | simpl; lia].
  - destruct (Js.strip_prefix pat (String c s)) as [rest|] eqn:Hpre.
    + intros [= <- <-]. apply strip_prefix_Some in Hpre.
      split; [exact Hpre | simpl; lia].
    + destruct (Js.cut pat s) as [[b a]|] eqn:Hcut; [|discriminate].
      intros [= <- <-]. destruct (IH b eq_refl) as [Hs Hmin].
      split; [rewrite append_cons; congruence|].
      intros [|c' before'] after' Heq.
      * rewrite append_nil_l in Heq. apply strip_prefix_Some in Heq.
        congruence.
      * rewrite append_cons in Heq. injection Heq as _ Heq.
        simpl. specialize (Hmin _ _ Heq). lia.
Qed.

Lemma cut_None (pat s : string) :
  Js.cut pat s = None ->
  forall before after, s <> before ++ pat ++ after.
Proof.
  induction s as [|c s IH]; simpl.
  - destruct (Js.strip_prefix pat "") as [rest|] eqn:Hpre; [discriminate|].
    intros _ [|c' before] after Heq.
    + rewrite append_nil_l in Heq. apply strip_prefix_Some in Heq.
      congruence.
    + rewrite append_cons in Heq. discriminate.
  - destruct (Js.strip_prefix pat (String c s)) as [rest|] eqn:Hpre;
      [discriminate|].
    destruct (Js.cut pat s) as [[b a]|] eqn:Hcut; [discriminate|].
    intros _ [|c' before] after Heq.
    + rewrite append_nil_l in Heq. apply strip_prefix_Some in Heq.
      congruence.
    + rewrite append_cons in Heq. injection Heq as _ Heq.
      exact (IH eq_refl _ _ Heq).
Qed.

(** [upto_last] splits at the last occurrence of the character. *)
Lemma upto_last_Some (c : ascii) (s before : string) :
  Js.upto_last c s = Some before ->
  exists after,
    s = before ++ String c after
    /\ ~ In c (list_ascii_of_string after).
Proof.
  revert before. induction s as [|a s IH]; intros before; simpl;
    [discriminate|].
  destruct (Js.upto_last c s) as [b|] eqn:Hlast.
  - intros [= <-]. destruct (IH b eq_refl) as (after & Hs & Hnot).
    exists after. split; [rewrite append_cons; congruence | exact Hnot].
  - destruct (Ascii.eqb_spec a c) as [->|Hne]; [|discriminate].
    intros [= <-]. exists s. split; [reflexivity|].
    clear IH. induction s as [|x s IHs]; simpl; [tauto|].
    simpl in Hlast.
    destruct (Js.upto_last c s) as [b|]; [discriminate|].
    destruct (Ascii.eqb_spec x c) as [->|Hx]; [discriminate|].
    intros [Heq | Hin]; [congruence|]. now apply IHs.
Qed.

Lemma upto_last_None (c : ascii) (s : string) :
  Js.upto_last c s = None -> ~ In c (list_ascii_of_string s).
Proof.
  induction s as [|x s IH]; simpl; [tauto|].
  destruct (Js.upto_last c s) as [b|]; [discriminate|].
  destruct (Ascii.eqb_spec x c) as [->|Hx]; [discriminate|].
  intros _ [Heq | Hin]; [congruence|]. now apply IH.
Qed.

Lemma In_append (c : ascii) (a b : string) :
  In c (list_ascii_of_string (a ++ b)) <->
  In c (list_ascii_of_string a) \/ In c (list_ascii_of_string b).
Proof.
  induction a as [|x a IH]; [rewrite append_nil_l; simpl; tauto|].
  rewrite append_cons. simpl. rewrite IH. tauto.
Qed.

(** Of two ways to split one text, the later split point leaves a suffix
    of what the earlier one leaves. *)
Lemma append_suffix (a b c d : string) :
  a ++ b = c ++ d -> String.length a <= String.length c ->
  exists m, b = m ++ d.
Proof.
  revert c. induction a as [|x a IH]; intros c Heq Hlen.
  - rewrite append_nil_l in Heq. now exists c.
  - destruct c as [|y c]; [simpl in Hlen; lia|].
    rewrite !append_cons in Heq. injection Heq as _ Heq.
    simpl in Hlen. apply (IH c Heq). lia.
Qed.

Lemma In_string_split (c : ascii) (s : string) :
  In c (list_ascii_of_string s) ->
  exists a b, s = a ++ String c b.
Proof.
  induction s as [|x s IH]; simpl; [tauto|].
  intros [-> | Hin].
  - now exists "", s.
  - destruct (IH Hin) as (a & b & ->). now exists (String x a), b.
Qed.

(** Before the leftmost occurrence of a character there is none. *)
Lemma leftmost_lacks (c : ascii) (before after : string) :
  leftmost (String c "") before (before ++ String c after) ->
  lacks c before.
Proof.
  intros Hmin Hin.
  destruct (In_string_split _ _ Hin) as (a & b & ->).
  specialize (Hmin a (b ++ String c after)).
  rewrite length_append in Hmin. simpl in Hmin.
  enough (String.length a + S (String.length b) <= String.length a) by lia.
  apply Hmin. now rewrite append_assoc.
Qed.

(** The first pattern fails only on a text without a fenced block: when
    the first opening fence has no closing fence after it, no opening
    fence has. *)
Lemma match_fenced_None (text : string) :
  match_fenced text = None -> ~ has_fenced_block text.
Proof.
  unfold match_fenced. intros Hnone (pre & inner & post & Htext).
  destruct (Js.cut FENCE_OPEN text) as [[pre0 rest]|] eqn:Hopen.
  - destruct (cut_Some _ _ _ _ Hopen) as [Hsplit Hmin].
    destruct (Js.cut FENCE_CLOSE rest) as [[inner0 post0]|] eqn:Hclose;
      [discriminate|].
    specialize (Hmin _ _ Htext).
    destruct (append_suffix (pre0 ++ FENCE_OPEN) rest
                (pre ++ FENCE_OPEN ++ inner) (FENCE_CLOSE ++ post))
      as [m Hm].
    + rewrite !append_assoc. congruence.
    + rewrite !length_append. lia.
    + exact (cut_None _ _ Hclose _ _ Hm).
  - exact (cut_None _ _ Hopen _ _ Htext).
Qed.

Lemma match_fenced_Some (text : string) (m : Match) :
  match_fenced text = Some m ->
  exists pre inner post,
    text = pre ++ FENCE_OPEN ++ inner ++ FENCE_CLOSE ++ post
    /\ leftmost FENCE_OPEN pre text
    /\ leftmost FENCE_CLOSE inner (inner ++ FENCE_CLOSE ++ post)
    /\ m = mkMatch (FENCE_OPEN ++ inner ++ FENCE_CLOSE) (Some inner).
Proof.
  unfold match_fenced.
  destruct (Js.cut FENCE_OPEN text) as [[pre rest]|] eqn:Hopen;
    [|discriminate].
  destruct (Js.cut FENCE_CLOSE rest) as [[inner post]|] eqn:Hclose;
    [|discriminate].
  intros [= <-].
  destruct (cut_Some _ _ _ _ Hopen) as [Hsplit Hmin].
  destruct (cut_Some _ _ _ _ Hclose) as [Hsplit' Hmin'].
  exists pre, inner, post. subst rest.
  split; [exact Hsplit|]. split; [exact Hmin|]. split; [exact Hmin'|].
  reflexivity.
Qed.

(** The second pattern fails only on a text in which no closing brace
    follows an opening one. *)
Lemma match_braces_None (text : string) :
  match_braces text = None -> ~ has_braces text.
Proof.
  unfold match_braces. intros Hnone (pre & inner & post & Htext).
  destruct (Js.cut "{" text) as [[pre0 rest]|] eqn:Hopen.
  - destruct (cut_Some _ _ _ _ Hopen) as [Hsplit Hmin].
    destruct (Js.upto_last "}" rest) as [inner0|] eqn:Hclose;
      [discriminate|].
    specialize (Hmin _ _ Htext).
    destruct (append_suffix (pre0 ++ "{") rest (pre ++ "{" ++ inner)
                ("}" ++ post)) as [m Hm].
    + rewrite !append_assoc. congruence.
    + rewrite !length_append. lia.
    + apply (upto_last_None _ _ Hclose). rewrite Hm.
      apply In_append. right. now left.
  - exact (cut_None _ _ Hopen _ _ Htext).
Qed.

Lemma match_braces_Some (text : string) (m : Match) :
  match_braces text = Some m ->
  exists pre inner post,
    text = pre ++ "{" ++ inner ++ "}" ++ post
    /\ lacks "{" pre
    /\ lacks "}" post
    /\ m = mkMatch ("{" ++ inner ++ "}") None.
Proof.
  unfold match_braces.
  destruct (Js.cut "{" text) as [[pre rest]|] eqn:Hopen; [|discriminate].
  destruct (Js.upto_last "}" rest) as [inner|] eqn:Hclose; [|discriminate].
  intros [= <-].
  destruct (cut_Some _ _ _ _ Hopen) as [Hsplit Hmin].
  destruct (upto_last_Some _ _ _ Hclose) as (post & Hrest & Hpost).
  exists pre, inner, post. subst rest.
  split; [exact Hsplit|]. split; [|split; [exact Hpost | reflexivity]].
  apply (leftmost_lacks "{" pre (inner ++ String "}" post)).
  rewrite Hsplit in Hmin. exact Hmin.
Qed.

(** The span the parser hands to [JSON.parse] is the payload of the reply
    text. *)
Lemma jsonContent_Located (text : string) : Located text (jsonContent text).
Proof.
  unfold jsonContent, jsonMatch.
  destruct (match_fenced text) as [m|] eqn:Hfenced.
  - destruct (match_fenced_Some _ _ Hfenced)
      as (pre & inner & post & Htext & Hopen & Hclose & ->).
    simpl. destruct inner as [|c inner]; simpl.
    + exact (LocatedEmptyFence text pre post Htext Hopen).
    + apply (LocatedFenced text pre (String c inner) post Htext Hopen Hclose).
      discriminate.
  - pose proof (match_fenced_None _ Hfenced) as Hnofence.
    destruct (match_braces text) as [m|] eqn:Hbraces.
    + destruct (match_braces_Some _ _ Hbraces)
        as (pre & inner & post & Htext & Hpre & Hpost & ->).
      simpl. exact (LocatedBraces text pre inner post Hnofence Htext Hpre Hpost).
    + apply LocatedWhole; [exact Hnofence|].
      exact (match_braces_None _ Hbraces).
Qed.

Lemma append_same_length (a b c d : string) :
  a ++ b = c ++ d -> String.length a = String.length c -> a = c /\ b = d.
Proof.
  revert c. induction a as [|x a IH]; intros [|y c] Heq Hlen;
    try discriminate Hlen.
  - now rewrite !append_nil_l in Heq.
  - rewrite !append_cons in Heq. injection Heq as -> Heq.
    injection Hlen as Hlen. destruct (IH c Heq Hlen) as [-> ->]. now split.
Qed.

Lemma leftmost_unique (pat a b a' b' s : string) :
  s = a ++ pat ++ b -> s = a' ++ pat ++ b' ->
  leftmost pat a s -> leftmost pat a' s ->
  a = a' /\ b = b'.
Proof.
  intros Hs Hs' Hmin Hmin'.
  pose proof (Hmin _ _ Hs') as Hle. pose proof (Hmin' _ _ Hs) as Hge.
  destruct (append_same_length a (pat ++ b) a' (pat ++ b')) as [-> Hrest];
    [congruence | lia |].
  split; [reflexivity|]. now apply String.app_inj in Hrest.
Qed.

Lemma lacks_leftmost (c : ascii) (before after : string) :
  lacks c before ->
  leftmost (String c "") before (before ++ String c after).
Proof.
  unfold lacks, leftmost.
  induction before as [|x before IH]; intros Hnot before' after' Heq;
    [simpl; lia|].
  destruct before' as [|y before'].
  - rewrite append_nil_l, !append_cons in Heq. injection Heq as -> _.
    exfalso. apply Hnot. now left.
  - rewrite !append_cons in Heq. injection Heq as _ Heq.
    simpl. enough (String.length before <= String.length before') by lia.
    apply IH with (after' := after'); [|exact Heq].
    intros Hin. apply Hnot. now right.
Qed.

Lemma last_occurrence_unique (c : ascii) (a b a' b' : string) :
  a ++ String c b = a' ++ String c b' ->
  lacks c b -> lacks c b' ->
  a = a' /\ b = b'.
Proof.
  unfold lacks. revert a'.
  induction a as [|x a IH]; intros [|y a'] Heq Hb Hb'.
  - rewrite !append_nil_l in Heq. injection Heq as ->. now split.
  - rewrite append_nil_l, append_cons in Heq. injection Heq as <- ->.
    exfalso. apply Hb. apply In_append. right. now left.
  - rewrite append_nil_l, append_cons in Heq. injection Heq as -> <-.
    exfalso. apply Hb'. apply In_append. right. now left.
  - rewrite !append_cons in Heq. injection Heq as -> Heq.
    destruct (IH a' Heq Hb Hb') as [-> ->]. now split.
Qed.

(** The payload of a text is one span only: the description decides what
    the parser must choose. *)
Lemma Located_jsonContent (text span : string) :
  Located text span <-> span = jsonContent text.
Proof.
  split; [|intros ->; apply jsonContent_Located].
  intros Hspan. pose proof (jsonContent_Located text) as Hcode.
  revert Hcode. generalize (jsonContent text) as span'. intros span' Hcode.
  destruct Hspan as [pre inner post Htext Hopen Hclose Hne
                    |pre post Htext Hopen
                    |pre inner post Hnofence Htext Hpre Hpost
                    |Hnofence Hnobraces];
    destruct Hcode as [pre' inner' post' Htext' Hopen' Hclose' Hne'
                      |pre' post' Htext' Hopen'
                      |pre' inner' post' Hnofence' Htext' Hpre' Hpost'
                      |Hnofence' Hnobraces'];
    try reflexivity;
    try (exfalso; first [apply Hnofence | apply Hnofence'];
         first [now exists pre, inner, post | now exists pre', inner', post'
               | now exists pre, "", post | now exists pre', "", post']);
    try (exfalso; first [apply Hnobraces | apply Hnobraces'];
         first [now exists pre, inner, post | now exists pre', inner', post']).
  - destruct (leftmost_unique _ _ _ _ _ _ Htext Htext' Hopen Hopen')
      as [-> Hrest].
    rewrite Hrest in Hclose.
    destruct (leftmost_unique _ _ _ _ _ _ (eq_sym Hrest) eq_refl
                Hclose Hclose') as [Hinner _].
    congruence.
  - exfalso.
    destruct (leftmost_unique _ _ _ _ _ _ Htext Htext' Hopen Hopen')
      as [-> Hrest].
    specialize (Hclose "" post' Hrest).
    destruct inner; [now apply Hne | simpl in Hclose; lia].
  - exfalso.
    destruct (leftmost_unique _ _ _ _ _ _ Htext Htext' Hopen Hopen')
      as [-> Hrest].
    specialize (Hclose' "" post (eq_sym Hrest)).
    destruct inner'; [now apply Hne' | simpl in Hclose'; lia].
  - assert (Hfirst : pre = pre' /\ inner ++ "}" ++ post
                                   = inner' ++ "}" ++ post').
    { apply (leftmost_unique "{" pre _ pre' _ text Htext Htext').
      - rewrite Htext. now apply lacks_leftmost.
      - rewrite Htext'. now apply lacks_leftmost. }
    destruct Hfirst as [_ Hrest].
    destruct (last_occurrence_unique "}" inner post inner' post' Hrest
                Hpost Hpost') as [-> _].
    reflexivity.
Qed.

(** ** Analysis client *)

Section AnalysisProperties.

Context {number : Type} `{Platform number}.
Local Abbreviation World := (World number).

Lemma parse_error_is_not_transport_error (e : Thrown) :
  analysis_error_message e <> MSG_PARSE_ERROR.
Proof.
  unfold analysis_error_message, MSG_PARSE_ERROR.
  rewrite !append_cons, append_nil_l. discriminate.
Qed.

Lemma ok_range (r : Response number) :
  ok r = true <-> (200 <= status r <= 299)%N.
Proof. unfold ok. rewrite andb_true_iff, !N.leb_le. tauto. Qed.

Lemma not_ok_range (r : Response number) :
  ok r = false <-> (status r < 200 \/ 299 < status r)%N.
Proof. unfold ok. rewrite andb_false_iff, !N.leb_gt. tauto. Qed.

(** Past the guards, [analyzeCode] raises the flag, clears the error and
    the result, and makes one request. *)
Lemma analyzeCode_starts (w : World) :
  apiKey (ui w) <> "" -> fileContent (ui w) <> "" ->
  analyzeCode w =
  emit (FxFetch (build_request (ui w)))
    (render (setAnalysisResults None)
       (render (setAnalysisError "") (render (setIsAnalyzing true) w))).
Proof.
  intros Hkey Hcontent. unfold analyzeCode.
  apply falsy_nonempty in Hkey, Hcontent. now rewrite Hkey, Hcontent.
Qed.

Lemma analyze_past_guards (o : FetchOutcome number) (w : World) :
  apiKey (ui w) <> "" -> fileContent (ui w) <> "" ->
  analyze o w = analyzeCode_resume o (analyzeCode w).
Proof.
  intros Hkey Hcontent. unfold analyze.
  apply falsy_nonempty in Hkey, Hcontent. now rewrite Hkey, Hcontent.
Qed.

(** A response that is not ok ends in the outer [catch] with the message
    built from its status; the body is not read. *)
Lemma analyzeCode_resume_not_ok (r : Response number) (w : World) :
  ok r = false ->
  analyzeCode_resume (FetchResponds r) w =
  finally_analysis
    (catch_analysis (ErrorObj (api_error r)) (emit FxFetchSettled w)).
Proof. intros Hok. unfold analyzeCode_resume. now rewrite Hok. Qed.

(** An ok response whose envelope holds a reply text ends in the inner
    [try]. *)
Lemma analyzeCode_resume_reply
    (r : Response number) (data : json number) (text : string) (w : World) :
  ok r = true -> body r = BodyJson data -> reply_text data = Some text ->
  analyzeCode_resume (FetchResponds r) w =
  finally_analysis
    (let w := emit (FxJsonParse (jsonContent text))
                (emit FxBodyJson (emit FxFetchSettled w)) in
     match JSON_parse (jsonContent text) with
     | Some parsedResults =>
         render (setAnalysisResults (Some parsedResults)) w
     | None => render (setAnalysisError MSG_PARSE_ERROR) w
     end).
Proof.
  intros Hok Hbody Htext. unfold analyzeCode_resume, parse_reply.
  now rewrite Hok, Hbody, Htext.
Qed.

(** Whatever the outcome, the [finally] block lowers the flag. *)
Lemma analyzeCode_resume_lowers_flag (o : FetchOutcome number) (w : World) :
  isAnalyzing (ui (analyzeCode_resume o w)) = false.
Proof. reflexivity. Qed.

End AnalysisProperties.

(** ** One request at a time *)

Section SingleRequest.

Context {number : Type} `{Platform number}.
Local Abbreviation World := (World number).

Lemma count_fx_render (p : Effect -> bool) (f : State number -> State number)
    (w : World) :
  count_fx p (render f w) = count_fx p w.
Proof. reflexivity. Qed.

Lemma count_fx_emit (p : Effect -> bool) (e : Effect) (w : World) :
  count_fx p (emit e w) = count_fx p w + Nat.b2n (p e).
Proof.
  unfold count_fx, emit. simpl.
  rewrite List.filter_app, length_app. simpl.
  destruct (p e); reflexivity.
Qed.

Lemma count_fx_commit (p : Effect -> bool) (w w' : World) :
  (forall k v, p (FxSetItem k v) = false) ->
  count_fx p (commit w w') = count_fx p w'.
Proof.
  intros Hp. unfold commit, save_effect, setItem.
  destruct (String.eqb _ _); [reflexivity|].
  destruct (Js.falsy _); [reflexivity|].
  rewrite count_fx_emit, Hp. unfold count_fx. simpl. lia.
Qed.

Lemma commit_ui (w w' : World) : ui (commit w w') = ui w'.
Proof.
  unfold commit, save_effect.
  destruct (String.eqb _ _); [reflexivity|].
  destruct (Js.falsy _); reflexivity.
Qed.

Lemma handleFileChange_view (f : File) (w : World) :
  request_view (handleFileChange f w) = request_view w.
Proof.
  unfold handleFileChange, request_view.
  destruct (MAX_FILE_SIZE <? size f)%N; [reflexivity|].
  destruct (negb _); [reflexivity|].
  rewrite !count_fx_emit. simpl. now rewrite !Nat.add_0_r.
Qed.

Lemma reader_settle_view (o : ReadOutcome) (w : World) :
  request_view (reader_settle o w) = request_view w.
Proof.
  unfold request_view.
  destruct o; simpl; unfold reader_onload, reader_onerror;
    rewrite !count_fx_render, !count_fx_emit; simpl;
    now rewrite !Nat.add_0_r.
Qed.

Lemma flag_tracks_request_view (w w' : World) :
  request_view w' = request_view w ->
  flag_tracks_request w -> flag_tracks_request w'.
Proof.
  unfold request_view, flag_tracks_request.
  intros [= Hf Hs Hflag Hres]. rewrite Hf, Hs, Hflag, Hres. tauto.
Qed.

Lemma boot_flag_tracks_request (store : gmap string string) :
  flag_tracks_request (boot (number := number) store).
Proof.
  unfold boot, mount, flag_tracks_request.
  rewrite !count_fx_commit, commit_ui by reflexivity.
  unfold save_effect, load_effect, page_load, getItem. simpl.
  destruct (store !! STORAGE_KEY) as [saved|]; [|split; [reflexivity|discriminate]].
  destruct (Js.falsy saved); split; first [reflexivity | discriminate].
Qed.

Lemma commit_view (w w' : World) :
  request_view (commit w w') = request_view w'.
Proof.
  unfold request_view.
  now rewrite !count_fx_commit, commit_ui by reflexivity.
Qed.

Lemma analyzeCode_resume_view (o : FetchOutcome number) (w : World) :
  count_fx is_fetch (analyzeCode_resume o w) = count_fx is_fetch w
  /\ count_fx is_fetch_settled (analyzeCode_resume o w)
     = S (count_fx is_fetch_settled w).
Proof.
  unfold analyzeCode_resume, finally_analysis, catch_analysis, parse_reply.
  destruct o as [e|r]; [|destruct (negb (ok r)); [|destruct (body r) as [data|e];
    [destruct (reply_text data) as [text|];
      [destruct (JSON_parse (jsonContent text))|]|]]];
    rewrite ?count_fx_render, ?count_fx_emit; simpl; split; lia.
Qed.

(** A click that gets past the button runs [analyzeCode] past its guards. *)
Lemma clickAnalyze_enabled (w : World) :
  analyze_disabled (ui w) = false ->
  isAnalyzing (ui w) = false
  /\ clickAnalyze w =
     emit (FxFetch (build_request (ui w)))
       (render (setAnalysisResults None)
          (render (setAnalysisError "") (render (setIsAnalyzing true) w))).
Proof.
  intros Hdis. unfold clickAnalyze. rewrite Hdis.
  unfold analyze_disabled in Hdis.
  apply orb_false_iff in Hdis as [Hdis Hflag].
  apply orb_false_iff in Hdis as [Hcontent Hkey].
  split; [exact Hflag|].
  apply analyzeCode_starts; now apply falsy_nonempty.
Qed.

Lemma step_flag_tracks_request (e : Event number) (w : World) :
  flag_tracks_request w -> flag_tracks_request (step e w).
Proof.
  intros Hinv. unfold step.
  match goal with
  | |- flag_tracks_request (commit w ?w') =>
      apply (flag_tracks_request_view w' (commit w w') (commit_view w w'))
  end.
  destruct e as [value| | |kind|files|files| |o| |o].
  - exact Hinv.
  - exact Hinv.
  - apply (flag_tracks_request_view w); [|exact Hinv].
    unfold request_view, handleClearApiKey, removeItem.
    rewrite !count_fx_emit. simpl. now rewrite !Nat.add_0_r.
  - destruct kind; exact Hinv.
  - apply (flag_tracks_request_view w); [|exact Hinv].
    unfold handleDrop. destruct files as [|f files]; [reflexivity|].
    now rewrite handleFileChange_view.
  - apply (flag_tracks_request_view w); [|exact Hinv].
    unfold handleInputChange. destruct files as [|f files]; [reflexivity|].
    now rewrite handleFileChange_view.
  - destruct Hinv as [Hcount _]. unfold flag_tracks_request, handleClearFile.
    rewrite !count_fx_emit, !count_fx_render. simpl.
    rewrite !Nat.add_0_r. split; [exact Hcount | reflexivity].
  - destruct (Nat.ltb 0 (reading w)); [|exact Hinv].
    apply (flag_tracks_request_view w); [|exact Hinv].
    apply reader_settle_view.
  - destruct (analyze_disabled (ui w)) eqn:Hdis.
    + unfold clickAnalyze. now rewrite Hdis.
    + destruct (clickAnalyze_enabled w Hdis) as [Hflag ->].
      destruct Hinv as [Hcount _]. rewrite Hflag in Hcount.
      unfold flag_tracks_request.
      rewrite !count_fx_emit, !count_fx_render. simpl in *.
      split; [lia | reflexivity].
  - destruct (Nat.ltb 0 (in_flight w)) eqn:Hflight; [|exact Hinv].
    apply Nat.ltb_lt in Hflight. unfold in_flight in Hflight.
    destruct Hinv as [Hcount _].
    destruct (analyzeCode_resume_view o w) as [Hf Hs].
    unfold flag_tracks_request.
    rewrite Hf, Hs, analyzeCode_resume_lowers_flag.
    destruct (isAnalyzing (ui w)); simpl in *; split;
      first [lia | discriminate].
Qed.

(** In every state the component reaches the flag tells whether a request
    is under way. *)
Lemma reachable_flag_tracks_request
    (store : gmap string string) (events : list (Event number)) :
  flag_tracks_request (run events (boot store)).
Proof.
  induction events as [|e events IH] using rev_ind.
  - apply boot_flag_tracks_request.
  - rewrite run_snoc. now apply step_flag_tracks_request.
Qed.

Lemma in_flight_flag (w : World) :
  flag_tracks_request w -> in_flight w = Nat.b2n (isAnalyzing (ui w)).
Proof. intros [Hcount _]. unfold in_flight. lia. Qed.

End SingleRequest.

Lemma requests_of_app (log log' : list Effect) :
  requests_of (log ++ log') = (requests_of log ++ requests_of log')%list.
Proof.
  induction log as [|e log IH]; [reflexivity|].
  destruct e; simpl; now rewrite IH.
Qed.

Lemma step_click {number : Type} `{Platform number} (w : World number) :
  step EvClickAnalyze w = clickAnalyze w.
Proof.
  unfold step. apply commit_same_key.
  unfold clickAnalyze, analyzeCode.
  destruct (analyze_disabled (ui w)); [reflexivity|].
  destruct (Js.falsy (apiKey (ui w))); [reflexivity|].
  destruct (Js.falsy (fileContent (ui w))); reflexivity.
Qed.

Lemma step_fetch_settles {number : Type} `{Platform number}
    (o : FetchOutcome number) (w : World number) :
  0 < in_flight w -> step (EvFetchSettles o) w = analyzeCode_resume o w.
Proof.
  intros Hpending. unfold step.
  apply Nat.ltb_lt in Hpending. rewrite Hpending.
  apply commit_same_key. apply analyzeCode_resume_credential.
Qed.

(** While a request is under way, in a state the component reaches, no
    result is held. *)
Lemma pending_request_no_result {number : Type} `{Platform number}
    (store : gmap string string) (events : list (Event number)) :
  0 < in_flight (run events (boot store)) ->
  analysisResults (ui (run events (boot store))) = None.
Proof.
  intros Hpending.
  pose proof (reachable_flag_tracks_request store events) as Hinv.
  pose proof (in_flight_flag _ Hinv) as Hflight.
  destruct Hinv as [_ Hres]. apply Hres.
  destruct (isAnalyzing (ui (run events (boot store))));
    [reflexivity | simpl in Hflight; lia].
Qed.

(** C7.  [analyzeCode] checks its guards before anything else.  Without a
    key it only sets the analysis error to the missing-key message; with a
    key and without file text it only sets it to the missing-file message.
    In both cases no platform call is made, so no request, and the two
    messages differ. *)
Theorem C7_preconditions_before_request {number : Type} (w : World number) :
  MSG_NO_KEY <> MSG_NO_FILE
  /\ (apiKey (ui w) = "" ->
      analyzeCode w = render (setAnalysisError MSG_NO_KEY) w
      /\ analysisError (ui (analyzeCode w)) = MSG_NO_KEY
      /\ effects (analyzeCode w) = effects w
      /\ requests (analyzeCode w) = requests w)
  /\ (apiKey (ui w) <> "" -> fileContent (ui w) = "" ->
      analyzeCode w = render (setAnalysisError MSG_NO_FILE) w
      /\ analysisError (ui (analyzeCode w)) = MSG_NO_FILE
      /\ effects (analyzeCode w) = effects w
      /\ requests (analyzeCode w) = requests w).
Proof.
  split; [discriminate|]. split.
  - intros Hkey. unfold analyzeCode. rewrite Hkey. repeat split.
  - intros Hkey Hcontent. unfold analyzeCode.
    apply falsy_nonempty in Hkey. rewrite Hkey, Hcontent. repeat split.
Qed.

Lemma C7_witness :
  let w0 := boot (number := Z) ∅ in
  let w1 := credential_set "sk-abc" (boot (number := Z) ∅) in
  apiKey (ui w0) = ""
  /\ analysisError (ui (analyzeCode w0)) = MSG_NO_KEY
  /\ requests (analyzeCode w0) = requests w0
  /\ apiKey (ui w1) <> "" /\ fileContent (ui w1) = ""
  /\ analysisError (ui (analyzeCode w1)) = MSG_NO_FILE
  /\ requests (analyzeCode w1) = requests w1.
Proof.
  cbv zeta.
  set (w0 := boot (number := Z) ∅).
  set (w1 := credential_set "sk-abc" w0).
  assert (Hkey0 : apiKey (ui w0) = "") by reflexivity.
  assert (Hkey1 : apiKey (ui w1) <> "") by (vm_compute; discriminate).
  assert (Hcontent1 : fileContent (ui w1) = "") by reflexivity.
  destruct (C7_preconditions_before_request w0) as (_ & Hnokey & _).
  destruct (C7_preconditions_before_request w1) as (_ & _ & Hnofile).
  destruct (Hnokey Hkey0) as (_ & Herr0 & _ & Hreq0).
  destruct (Hnofile Hkey1 Hcontent1) as (_ & Herr1 & _ & Hreq1).
  repeat (split; [assumption|]). exact Hreq1.
Defined.

(** With a key and no file text: the missing-file error, and no request. *)
Example missing_file_example :
  let w := credential_set "sk-abc" (boot (number := Z) ∅) in
  analysisError (ui (analyzeCode w)) = MSG_NO_FILE
  /\ requests (analyzeCode w) = [].
Proof. vm_compute. split; reflexivity. Qed.

(** C8.  When the response to a request has a status outside 200-299, the
    analysis error is the transport message carrying the status code and
    the reason phrase, the analysis result is unset, and the flag is down.
    The only platform event is the answer itself: the body is not read and
    [JSON.parse] is not called.  This holds for a run of [analyzeCode] that
    passes its guards, and for the answer to the request under way in any
    state the component reaches, whatever happened since the click. *)
Theorem C8_non_2xx_is_transport_error {number : Type} `{Platform number}
    (r : Response number) :
  (status r < 200 \/ 299 < status r)%N ->
  (forall w : World number,
      apiKey (ui w) <> "" -> fileContent (ui w) <> "" ->
      let w' := analyze (FetchResponds r) w in
      analysisError (ui w')
      = "Error analyzing code: API error: "
        ++ pretty (status r) ++ " " ++ statusText r
      /\ analysisResults (ui w') = None
      /\ isAnalyzing (ui w') = false
      /\ effects w'
         = (effects w
            ++ [FxFetch (build_request (ui w)); FxFetchSettled])%list)
  /\ (forall (store : gmap string string) (events : list (Event number)),
      let w := run events (boot store) in
      0 < in_flight w ->
      let w' := step (EvFetchSettles (FetchResponds r)) w in
      analysisError (ui w')
      = "Error analyzing code: API error: "
        ++ pretty (status r) ++ " " ++ statusText r
      /\ analysisResults (ui w') = None
      /\ isAnalyzing (ui w') = false
      /\ effects w' = (effects w ++ [FxFetchSettled])%list).
Proof.
  intros Hstatus. apply not_ok_range in Hstatus.
  assert (Hmsg : analysis_error_message (ErrorObj (api_error r))
                 = "Error analyzing code: API error: "
                   ++ pretty (status r) ++ " " ++ statusText r).
  { unfold analysis_error_message, api_error.
    rewrite <- append_assoc. reflexivity. }
  split.
  - intros w Hkey Hcontent w'. subst w'.
    rewrite (analyze_past_guards _ w Hkey Hcontent).
    rewrite (analyzeCode_starts w Hkey Hcontent).
    rewrite (analyzeCode_resume_not_ok r _ Hstatus).
    split; [exact Hmsg|]. split; [reflexivity|]. split; [reflexivity|].
    simpl. now rewrite <- app_assoc.
  - intros store events w Hpending w'. subst w'.
    rewrite (step_fetch_settles _ w Hpending).
    rewrite (analyzeCode_resume_not_ok r _ Hstatus).
    split; [exact Hmsg|]. split; [|split; reflexivity].
    exact (pending_request_no_result store events Hpending).
Qed.

Lemma C8_witness :
  let r := mkResponse 500 "Internal Server Error"
             (BodyJson (envelope sample_result_text)) in
  let w := run session_pending (boot ∅) in
  let w' := step (EvFetchSettles (FetchResponds r)) w in
  (status r < 200 \/ 299 < status r)%N
  /\ 0 < in_flight w
  /\ analysisError (ui w')
     = "Error analyzing code: API error: 500 Internal Server Error"
  /\ analysisResults (ui w') = None.
Proof.
  cbv zeta.
  set (r := mkResponse 500 _ _).
  assert (Hstatus : (status r < 200 \/ 299 < status r)%N)
    by (right; reflexivity).
  assert (Hpending : 0 < in_flight (run session_pending (boot ∅)))
    by (vm_compute; lia).
  destruct (C8_non_2xx_is_transport_error r Hstatus) as [_ Hreach].
  destruct (Hreach ∅ session_pending Hpending) as (Herr & Hres & _).
  split; [exact Hstatus|]. split; [exact Hpending|].
  split; [|exact Hres].
  rewrite Herr. reflexivity.
Defined.

(** C1, as stated, fails on the second strategy.  The reply
    [{"issues":[]} and {}] has no fenced block; its first top-level brace
    span is [{"issues":[]}], which [JSON.parse] accepts, but the parser
    takes the text from the first opening brace to the last closing brace,
    here the whole reply, and ends in the parse error. *)
Lemma C1_counterexample :
  let w := run session_pending (boot ∅) in
  let w' := step (EvFetchSettles (respond 200 "OK" two_spans_text)) w in
  match_fenced two_spans_text = None
  /\ spec_first_top_level_span two_spans_text = Some sample_result_text
  /\ spec_payload two_spans_text = sample_result_text
  /\ JSON_parse (spec_payload two_spans_text) = Some sample_result
  /\ jsonContent two_spans_text = two_spans_text
  /\ jsonContent two_spans_text <> spec_payload two_spans_text
  /\ analysisResults (ui w') = None
  /\ analysisError (ui w') = MSG_PARSE_ERROR.
Proof.
  vm_compute. repeat split. discriminate.
Qed.

(** C1, amended.  For every response with a status in 200-299 whose
    envelope holds a reply text, [analyzeCode] hands to [JSON.parse] the
    payload of that text: the inside of the first fenced block labeled
    json (the block with its fences when the inside is empty); without a
    fenced block, the text from the first opening brace to the last
    closing brace; otherwise the whole text.  When the payload parses, the
    result is the parsed value ([null] being no result) and no error is
    set.  When it does not, the error is the parse message, which no
    transport error equals, and no result is held; this is so for a run of
    [analyzeCode] that passes its guards, and for the answer to the request
    under way in any state the component reaches. *)
Theorem C1_reply_payload_and_parse_error {number : Type} `{Platform number}
    (r : Response number) (data : json number) (text : string) :
  (200 <= status r <= 299)%N ->
  body r = BodyJson data ->
  reply_text data = Some text ->
  (forall span, Located text span <-> span = jsonContent text)
  /\ (forall e, analysis_error_message e <> MSG_PARSE_ERROR)
  /\ (forall w : World number,
      apiKey (ui w) <> "" -> fileContent (ui w) <> "" ->
      let w' := analyze (FetchResponds r) w in
      effects w'
      = (effects w ++ [FxFetch (build_request (ui w)); FxFetchSettled;
                       FxBodyJson; FxJsonParse (jsonContent text)])%list
      /\ isAnalyzing (ui w') = false
      /\ (forall v, JSON_parse (jsonContent text) = Some v ->
          analysisResults (ui w')
          = match v with JNull => None | _ => Some v end
          /\ analysisError (ui w') = "")
      /\ (JSON_parse (jsonContent text) = None ->
          analysisResults (ui w') = None
          /\ analysisError (ui w') = MSG_PARSE_ERROR))
  /\ (forall (store : gmap string string) (events : list (Event number)),
      let w := run events (boot store) in
      0 < in_flight w ->
      JSON_parse (jsonContent text) = None ->
      let w' := step (EvFetchSettles (FetchResponds r)) w in
      analysisResults (ui w') = None
      /\ analysisError (ui w') = MSG_PARSE_ERROR).
Proof.
  intros Hstatus Hbody Htext. apply ok_range in Hstatus.
  split; [intros span; apply Located_jsonContent|].
  split; [apply parse_error_is_not_transport_error|].
  split.
  - intros w Hkey Hcontent w'. subst w'.
    rewrite (analyze_past_guards _ w Hkey Hcontent).
    rewrite (analyzeCode_starts w Hkey Hcontent).
    rewrite (analyzeCode_resume_reply r data text _ Hstatus Hbody Htext).
    split.
    { destruct (JSON_parse (jsonContent text)); simpl;
        now rewrite <- !app_assoc. }
    split; [reflexivity|]. split.
    + intros v Hv. rewrite Hv. simpl. split; reflexivity.
    + intros Hnone. rewrite Hnone. split; reflexivity.
  - intros store events w Hpending Hnone w'. subst w'.
    rewrite (step_fetch_settles _ w Hpending).
    rewrite (analyzeCode_resume_reply r data text _ Hstatus Hbody Htext).
    rewrite Hnone. split; [|reflexivity].
    exact (pending_request_no_result store events Hpending).
Qed.

Lemma C1_witness :
  let w := run [EvChangeApiKey "sk-abc"; EvDrop [a_py];
                EvReaderSettles (ReadLoaded "print(1)")] (boot ∅) in
  let text := "Here it is: ```json" ++ LF ++ "{}" ++ LF ++ "``` {oops}" in
  let r := mkResponse 200 "OK" (BodyJson (envelope text)) in
  (200 <= status r <= 299)%N
  /\ reply_text (envelope text) = Some text
  /\ apiKey (ui w) <> "" /\ fileContent (ui w) <> ""
  /\ jsonContent text = "{}"
  /\ analysisResults (ui (analyze (FetchResponds r) w)) = Some (JObj []).
Proof.
  cbv zeta.
  set (w := run _ (boot ∅)).
  set (text := "Here it is: ```json" ++ _).
  set (r := mkResponse 200 _ _).
  assert (Hstatus : (200 <= status r <= 299)%N)
    by (split; vm_compute; discriminate).
  assert (Htext : reply_text (envelope text) = Some text) by reflexivity.
  assert (Hkey : apiKey (ui w) <> "") by (vm_compute; discriminate).
  assert (Hcontent : fileContent (ui w) <> "") by (vm_compute; discriminate).
  assert (Hspan : jsonContent text = "{}") by reflexivity.
  destruct (C1_reply_payload_and_parse_error r (envelope text) text
              Hstatus eq_refl Htext) as (_ & _ & Hrun & _).
  destruct (Hrun w Hkey Hcontent) as (_ & _ & Hparsed & _).
  destruct (Hparsed (JObj []) eq_refl) as [Hres _].
  repeat (split; [assumption|]). exact Hres.
Defined.

(** The two replies of the specification: a fenced block is extracted and
    parsed; plain prose ends in the parse error with no result. *)
Example fenced_reply_example :
  let w := run session_pending (boot ∅) in
  let text := "```json" ++ LF ++ sample_result_text ++ LF ++ "```" in
  jsonContent text = sample_result_text
  /\ analysisResults (ui (step (EvFetchSettles (respond 200 "OK" text)) w))
     = Some sample_result.
Proof. vm_compute. split; reflexivity. Qed.

Example prose_reply_example :
  let w := run session_pending (boot ∅) in
  let text := "The code looks fine to me." in
  let w' := step (EvFetchSettles (respond 200 "OK" text)) w in
  jsonContent text = text
  /\ analysisResults (ui w') = None
  /\ analysisError (ui w') = MSG_PARSE_ERROR.
Proof. vm_compute. repeat split. Qed.

(** An empty fenced block: the first group is the empty string, which is
    falsy, so the whole block, fences included, goes to [JSON.parse]. *)
Example empty_fence_example :
  jsonContent ("```json" ++ LF ++ LF ++ "```")
  = "```json" ++ LF ++ LF ++ "```".
Proof. reflexivity. Qed.

(** A successful response without a reply text in its envelope ends in the
    parse error as well; one whose body cannot be read as JSON ends in the
    outer [catch]. *)
Lemma reply_missing_is_parse_error {number : Type} `{Platform number}
    (r : Response number) (data : json number) (w : World number) :
  ok r = true -> body r = BodyJson data -> reply_text data = None ->
  analysisError (ui (analyzeCode_resume (FetchResponds r) w))
  = MSG_PARSE_ERROR
  /\ analysisResults (ui (analyzeCode_resume (FetchResponds r) w))
     = analysisResults (ui w).
Proof.
  intros Hok Hbody Htext. unfold analyzeCode_resume, parse_reply.
  rewrite Hok, Hbody, Htext. split; reflexivity.
Qed.

Lemma body_unreadable_is_outer_error {number : Type} `{Platform number}
    (r : Response number) (e : Thrown) (w : World number) :
  ok r = true -> body r = BodyRejects e ->
  analysisError (ui (analyzeCode_resume (FetchResponds r) w))
  = analysis_error_message e.
Proof.
  intros Hok Hbody. unfold analyzeCode_resume.
  rewrite Hok, Hbody. reflexivity.
Qed.







(** C6.  In every state the component reaches, the number of requests
    under way is 1 when the analyzing flag is up and 0 when it is down.  A
    click on an enabled Analyze button raises the flag in the step that
    makes the request.  While a request is under way a click changes
    nothing, so it makes no second request.  When the request settles,
    whatever the outcome (the fetch fails, the status is not ok, the body
    or the reply does not parse, the reply parses), the flag is down and
    no request is under way. *)
Theorem C6_no_second_request {number : Type} `{Platform number}
    (store : gmap string string) (events : list (Event number)) :
  let w := run events (boot store) in
  in_flight w = Nat.b2n (isAnalyzing (ui w))
  /\ (analyze_disabled (ui w) = false ->
      isAnalyzing (ui (step EvClickAnalyze w)) = true
      /\ requests (step EvClickAnalyze w)
         = (requests w ++ [build_request (ui w)])%list
      /\ in_flight (step EvClickAnalyze w) = 1)
  /\ (0 < in_flight w ->
      step EvClickAnalyze w = w
      /\ requests (step EvClickAnalyze w) = requests w)
  /\ (forall o, 0 < in_flight w ->
      isAnalyzing (ui (step (EvFetchSettles o) w)) = false
      /\ in_flight (step (EvFetchSettles o) w) = 0).
Proof.
  intros w.
  pose proof (reachable_flag_tracks_request store events) as Hinv.
  fold w in Hinv.
  pose proof (in_flight_flag w Hinv) as Hflight.
  split; [exact Hflight|]. split; [|split].
  - intros Hdis.
    pose proof (step_flag_tracks_request EvClickAnalyze w Hinv) as Hinv'.
    apply in_flight_flag in Hinv'.
    rewrite step_click in *.
    destruct (clickAnalyze_enabled w Hdis) as [_ Hclick].
    assert (Hflag : isAnalyzing (ui (clickAnalyze w)) = true)
      by now rewrite Hclick.
    split; [exact Hflag|]. split; [|now rewrite Hinv', Hflag].
    rewrite Hclick. unfold requests, emit. simpl.
    now rewrite requests_of_app.
  - intros Hpending.
    assert (Hsame : step EvClickAnalyze w = w).
    { rewrite step_click. unfold clickAnalyze, analyze_disabled.
      destruct (isAnalyzing (ui w)); [|simpl in Hflight; lia].
      now rewrite orb_true_r. }
    split; [exact Hsame | now rewrite Hsame].
  - intros o Hpending.
    pose proof (step_flag_tracks_request (EvFetchSettles o) w Hinv) as Hinv'.
    apply in_flight_flag in Hinv'.
    assert (Hflag : isAnalyzing (ui (step (EvFetchSettles o) w)) = false).
    { unfold step. rewrite commit_ui.
      apply Nat.ltb_lt in Hpending. rewrite Hpending.
      apply analyzeCode_resume_lowers_flag. }
    split; [exact Hflag | now rewrite Hinv', Hflag].
Qed.

Lemma C6_witness :
  let w0 := run [EvChangeApiKey "sk-abc"; EvDrop [a_py];
                 EvReaderSettles (ReadLoaded "print(1)")] (boot ∅) in
  let w := run session_pending (boot ∅) in
  analyze_disabled (ui w0) = false
  /\ isAnalyzing (ui (step EvClickAnalyze w0)) = true
  /\ in_flight (step EvClickAnalyze w0) = 1
  /\ 0 < in_flight w
  /\ step EvClickAnalyze w = w
  /\ requests (step EvClickAnalyze w) = requests w
  /\ isAnalyzing
       (ui (step (EvFetchSettles (respond 200 "OK" two_spans_text)) w))
     = false.
Proof.
  cbv zeta.
  set (before := [EvChangeApiKey "sk-abc"; EvDrop [a_py];
                  EvReaderSettles (ReadLoaded "print(1)")]).
  assert (Henabled : analyze_disabled (ui (run before (boot ∅))) = false)
    by reflexivity.
  assert (Hpending : 0 < in_flight (run session_pending (boot ∅)))
    by (vm_compute; lia).
  destruct (C6_no_second_request ∅ before) as (_ & Hstart & _).
  destruct (C6_no_second_request ∅ session_pending)
    as (_ & _ & Hgate & Hsettle).
  destruct (Hstart Henabled) as (Hflag1 & _ & Hflight1).
  destruct (Hgate Hpending) as [Hsame Hreq].
  destruct (Hsettle (respond 200 "OK" two_spans_text) Hpending) as [Hflag _].
  repeat (split; [assumption|]). exact Hflag.
Defined.

(** Two clicks in a row make one request. *)
Example double_click_example :
  length (requests (run (session_pending ++ [EvClickAnalyze]) (boot ∅))) = 1.
Proof. vm_compute. reflexivity. Qed.

(** * Further properties of the handlers *)

(** ** Ingestion *)

(** X2.  For a name that ends, after its last dot, in an ASCII segment,
    the extension that is checked is that segment in lowercase, behind a
    dot: whatever precedes the last dot, dots included, plays no part, and
    neither does the case of the letters.  The file passes validation
    exactly when it is within the size limit and this extension is a key
    of the table, and it is then installed under the label of that key. *)
Theorem X2_extension_is_last_segment {number : Type}
    (stem ext k : string) (bytes : N) :
  ~ In "."%char (list_ascii_of_string ext) ->
  lowercase_of ext k ->
  let f := mkFile (stem ++ "." ++ ext) bytes in
  fileExtension f = "." ++ k
  /\ (passes_validation f = true <->
      (bytes <= 5242880)%N /\ In ("." ++ k) (map fst SUPPORTED_EXTENSIONS))
  /\ ((bytes <= 5242880)%N ->
      In ("." ++ k) (map fst SUPPORTED_EXTENSIONS) ->
      forall (content : string) (w : World number),
        file (ui (ingest f (ReadLoaded content) w)) = Some f
        /\ table_get SUPPORTED_EXTENSIONS ("." ++ k)
           = Some (fileLanguage (ui (ingest f (ReadLoaded content) w)))).
Proof.
  intros Hext Hk f.
  assert (Hfe : fileExtension f = "." ++ k).
  { apply (last_segment_extension f ext k); [|exact Hk].
    split; [exact Hext|]. right. now exists stem. }
  split; [exact Hfe|]. split.
  - rewrite passes_validation_iff, Hfe. reflexivity.
  - intros Hsize Hkey content w. rewrite <- Hfe in Hkey.
    assert (Hok : passes_validation f = true).
    { apply passes_validation_iff. now split. }
    unfold ingest. rewrite Hok.
    rewrite (handleFileChange_accepted f w Hsize Hkey).
    split; [reflexivity|]. rewrite <- Hfe. symmetry.
    now apply language_of_key.
Qed.

Lemma X2_witness :
  let f := mkFile "archive.tar.PY" 10 in
  ~ In "."%char (list_ascii_of_string "PY")
  /\ lowercase_of "PY" "py"
  /\ fileExtension f = ".py"
  /\ fileLanguage
       (ui (ingest f (ReadLoaded "print(1)") (boot (number := Z) ∅)))
     = "Python".
Proof.
  cbv zeta.
  assert (Hext : ~ In "."%char (list_ascii_of_string "PY")).
  { simpl. intros [Hp | [Hy | []]]; discriminate. }
  assert (Hk : lowercase_of "PY" "py").
  { apply (ascii_lowercase "PY"). repeat constructor. }
  destruct (X2_extension_is_last_segment (number := Z)
              "archive.tar" "PY" "py" 10 Hext Hk) as (Hfe & _ & Hinstall).
  assert (Hsize : (10 <= 5242880)%N) by (vm_compute; discriminate).
  assert (Hkey : In ("." ++ "py") (map fst SUPPORTED_EXTENSIONS)).
  { apply includes_In. reflexivity. }
  destruct (Hinstall Hsize Hkey "print(1)" (boot (number := Z) ∅))
    as [_ Hlabel].
  split; [exact Hext|]. split; [exact Hk|]. split; [exact Hfe|].
  assert (Htable : table_get SUPPORTED_EXTENSIONS ("." ++ "py")
                   = Some "Python") by reflexivity.
  rewrite Htable in Hlabel.
  change "archive.tar.PY" with ("archive.tar" ++ "." ++ "PY").
  congruence.
Defined.

(** X1.  A file within the size limit whose extension is a key of the
    table, and whose read succeeds, is installed whole, whatever was held
    before: the file handle, the label the table gives for the extension,
    the text that was read, and no file error.  One read is started and
    ended; the key, the flag, the result and the analysis error are what
    they were. *)
Theorem X1_valid_file_installed {number : Type}
    (f : File) (content : string) (w : World number) :
  (size f <= 5242880)%N ->
  In (fileExtension f) (map fst SUPPORTED_EXTENSIONS) ->
  let w' := ingest f (ReadLoaded content) w in
  file (ui w') = Some f
  /\ table_get SUPPORTED_EXTENSIONS (fileExtension f)
     = Some (fileLanguage (ui w'))
  /\ fileContent (ui w') = content
  /\ fileError (ui w') = ""
  /\ effects w' = (effects w ++ [FxReadAsText f; FxReadSettled])%list
  /\ apiKey (ui w') = apiKey (ui w)
  /\ isAnalyzing (ui w') = isAnalyzing (ui w)
  /\ analysisResults (ui w') = analysisResults (ui w)
  /\ analysisError (ui w') = analysisError (ui w).
Proof.
  intros Hsize Hext w'.
  assert (Hok : passes_validation f = true).
  { apply passes_validation_iff. now split. }
  assert (Hw' : w' = reader_onload content (handleFileChange f w)).
  { subst w'. unfold ingest. now rewrite Hok. }
  rewrite Hw', (handleFileChange_accepted f w Hsize Hext).
  split; [reflexivity|].
  split; [symmetry; now apply language_of_key|].
  split; [reflexivity|]. split; [reflexivity|].
  split; [simpl; now rewrite <- app_assoc|].
  repeat split.
Qed.

Lemma X1_witness :
  (size b_js <= 5242880)%N
  /\ In (fileExtension b_js) (map fst SUPPORTED_EXTENSIONS)
  /\ fileLanguage
       (ui (ingest b_js (ReadLoaded "let x = 2")
              (run session_with_result (boot ∅))))
     = "JavaScript".
Proof.
  assert (Hsize : (size b_js <= 5242880)%N) by (vm_compute; discriminate).
  assert (Hext : In (fileExtension b_js) (map fst SUPPORTED_EXTENSIONS)).
  { apply includes_In. reflexivity. }
  split; [exact Hsize|]. split; [exact Hext|].
  destruct (X1_valid_file_installed b_js "let x = 2"
              (run session_with_result (boot ∅)) Hsize Hext)
    as (_ & Hlabel & _).
  vm_compute in Hlabel. vm_compute. congruence.
Defined.

Lemma step_drop {number : Type} `{Platform number}
    (files : list File) (w : World number) :
  step (EvDrop files) w = handleDrop files w.
Proof.
  unfold step. apply commit_same_key. unfold handleDrop.
  destruct files as [|f files]; [reflexivity|].
  apply (handleFileChange_credential f (render (setDragActive false) w)).
Qed.


(** X3.  While the read of a newly selected file is under way the text
    that is held is still the one held before.  An Analyze click at that
    moment is not stopped: it sends the text held before under the
    language label of the new file. *)
Theorem X3_click_during_read {number : Type} `{Platform number}
    (f : File) (w : World number) :
  apiKey (ui w) <> "" -> fileContent (ui w) <> "" ->
  isAnalyzing (ui w) = false ->
  (size f <= 5242880)%N ->
  In (fileExtension f) (map fst SUPPORTED_EXTENSIONS) ->
  let w1 := step (EvDrop [f]) w in
  let w2 := step EvClickAnalyze w1 in
  file (ui w1) = Some f
  /\ fileContent (ui w1) = fileContent (ui w)
  /\ effects w1 = (effects w ++ [FxReadAsText f])%list
  /\ exists req,
       requests w2 = (requests w ++ [req])%list
       /\ user_content req = fileContent (ui w)
       /\ table_get SUPPORTED_EXTENSIONS (fileExtension f)
          = Some (system_language req)
       /\ authorization req = "Bearer " ++ apiKey (ui w).
Proof.
  intros Hkey Hcontent Hflag Hsize Hext w1 w2.
  assert (Hw1 : w1 = emit (FxReadAsText f)
                       (render (setFileLanguage (language_of (fileExtension f)))
                          (render (setFile (Some f))
                             (render (setFileError "")
                                (render (setDragActive false) w))))).
  { subst w1. rewrite step_drop. unfold handleDrop.
    now rewrite (handleFileChange_accepted f _ Hsize Hext). }
  assert (Henabled : analyze_disabled (ui w1) = false).
  { rewrite Hw1. unfold analyze_disabled. simpl.
    apply falsy_nonempty in Hkey, Hcontent.
    now rewrite Hkey, Hcontent, Hflag. }
  split; [now rewrite Hw1|]. split; [now rewrite Hw1|].
  split; [now rewrite Hw1|].
  exists (build_request (ui w1)).
  split.
  - subst w2. rewrite step_click.
    destruct (clickAnalyze_enabled w1 Henabled) as [_ ->].
    unfold requests, emit. simpl. rewrite requests_of_app. simpl.
    f_equal. rewrite Hw1. unfold emit. simpl.
    rewrite requests_of_app. simpl. now rewrite app_nil_r.
  - assert (Htext : user_content (build_request (ui w1))
                    = fileContent (ui w)) by (rewrite Hw1; reflexivity).
    assert (Hlang : system_language (build_request (ui w1))
                    = language_of (fileExtension f))
      by (rewrite Hw1; reflexivity).
    assert (Hauth : authorization (build_request (ui w1))
                    = "Bearer " ++ apiKey (ui w))
      by (rewrite Hw1; reflexivity).
    split; [exact Htext|]. split; [|exact Hauth].
    rewrite Hlang. symmetry. apply language_of_key. exact Hext.
Qed.

Lemma X3_witness :
  let w := run [EvChangeApiKey "sk-abc"; EvDrop [a_py];
                EvReaderSettles (ReadLoaded "print(1)")] (boot ∅) in
  let w2 := step EvClickAnalyze (step (EvDrop [b_js]) w) in
  apiKey (ui w) <> "" /\ fileContent (ui w) <> ""
  /\ isAnalyzing (ui w) = false
  /\ (size b_js <= 5242880)%N
  /\ In (fileExtension b_js) (map fst SUPPORTED_EXTENSIONS)
  /\ fileContent (ui w) = "print(1)"
  /\ exists req,
       requests w2 = (requests w ++ [req])%list
       /\ user_content req = fileContent (ui w)
       /\ table_get SUPPORTED_EXTENSIONS (fileExtension b_js)
          = Some (system_language req).
Proof.
  cbv zeta.
  set (w := run _ (boot ∅)).
  assert (Hkey : apiKey (ui w) <> "") by (vm_compute; discriminate).
  assert (Hcontent : fileContent (ui w) <> "") by (vm_compute; discriminate).
  assert (Hflag : isAnalyzing (ui w) = false) by (vm_compute; reflexivity).
  assert (Hsize : (size b_js <= 5242880)%N) by (vm_compute; discriminate).
  assert (Hext : In (fileExtension b_js) (map fst SUPPORTED_EXTENSIONS)).
  { apply includes_In. vm_compute. reflexivity. }
  assert (Hheld : fileContent (ui w) = "print(1)")
    by (vm_compute; reflexivity).
  destruct (X3_click_during_read b_js w Hkey Hcontent Hflag Hsize Hext)
    as (_ & _ & _ & req & Hreq & Htext & Hlabel & _).
  repeat (split; [assumption|]).
  exists req. split; [exact Hreq|]. split; [exact Htext | exact Hlabel].
Defined.




(** ** What holds in every state the component reaches *)

Section Reachable.

Context {number : Type} `{Platform number}.
Local Abbreviation World := (World number).

(** What holds when the component is mounted and is kept by every event
    holds in every state the component reaches. *)
Lemma reachable_invariant (P : World -> Prop) (store : gmap string string) :
  P (boot store) ->
  (forall e w, P w -> P (step e w)) ->
  forall events, P (run events (boot store)).
Proof.
  intros Hboot Hstep events.
  induction events as [|e events IH] using rev_ind; [exact Hboot|].
  rewrite run_snoc. now apply Hstep.
Qed.

Lemma requests_emit (e : Effect) (w : World) :
  requests (emit e w) = (requests w ++ requests_of [e])%list.
Proof. unfold requests, emit. simpl. apply requests_of_app. Qed.

Lemma requests_commit (w w' : World) : requests (commit w w') = requests w'.
Proof.
  unfold commit, save_effect, setItem.
  destruct (String.eqb _ _); [reflexivity|].
  destruct (Js.falsy _); [reflexivity|].
  rewrite requests_emit. simpl. apply app_nil_r.
Qed.

Lemma requests_handleFileChange (f : File) (w : World) :
  requests (handleFileChange f w) = requests w.
Proof.
  unfold handleFileChange.
  destruct (MAX_FILE_SIZE <? size f)%N; [reflexivity|].
  destruct (negb _); [reflexivity|].
  rewrite requests_emit. simpl. apply app_nil_r.
Qed.

Lemma requests_analyzeCode_resume (o : FetchOutcome number) (w : World) :
  requests (analyzeCode_resume o w) = requests w.
Proof.
  unfold analyzeCode_resume, finally_analysis, catch_analysis, parse_reply.
  destruct o as [e|r]; [|destruct (negb (ok r)); [|destruct (body r) as [data|e];
    [destruct (reply_text data) as [text|];
      [destruct (JSON_parse (jsonContent text))|]|]]];
    unfold requests, render, emit; simpl;
    rewrite ?requests_of_app; simpl; rewrite ?app_nil_r; reflexivity.
Qed.

(** An event adds at most one request, and only a click that finds a key
    and a file text. *)
Lemma step_requests (e : Event number) (w : World) :
  requests (step e w) = requests w
  \/ (requests (step e w) = (requests w ++ [build_request (ui w)])%list
      /\ apiKey (ui w) <> "" /\ fileContent (ui w) <> "").
Proof.
  unfold step. rewrite requests_commit.
  destruct e as [value| | |kind|files|files| |o| |o].
  - now left.
  - now left.
  - left. unfold handleClearApiKey, removeItem. rewrite requests_emit.
    simpl. apply app_nil_r.
  - left. now destruct kind.
  - left. unfold handleDrop. destruct files as [|f files]; [reflexivity|].
    now rewrite requests_handleFileChange.
  - left. unfold handleInputChange.
    destruct files as [|f files]; [reflexivity|].
    now rewrite requests_handleFileChange.
  - left. unfold handleClearFile. rewrite requests_emit. simpl.
    apply app_nil_r.
  - left. destruct (Nat.ltb 0 (reading w)); [|reflexivity].
    destruct o; unfold reader_settle, reader_onload, reader_onerror;
      unfold requests, render, emit; simpl;
      rewrite requests_of_app; simpl; apply app_nil_r.
  - destruct (analyze_disabled (ui w)) eqn:Hdis.
    + left. unfold clickAnalyze. now rewrite Hdis.
    + right. destruct (clickAnalyze_enabled w Hdis) as [_ ->].
      rewrite requests_emit.
      unfold analyze_disabled in Hdis.
      apply orb_false_iff in Hdis as [Hdis _].
      apply orb_false_iff in Hdis as [Hcontent Hkey].
      split; [reflexivity|]. split; now apply falsy_nonempty.
  - left. destruct (Nat.ltb 0 (in_flight w)); [|reflexivity].
    apply requests_analyzeCode_resume.
Qed.

Lemma requests_boot (store : gmap string string) :
  requests (boot (number := number) store) = [].
Proof.
  unfold boot, mount. rewrite requests_commit.
  unfold save_effect, load_effect, page_load, getItem. simpl.
  destruct (store !! STORAGE_KEY) as [saved|]; [|reflexivity].
  destruct (Js.falsy saved); reflexivity.
Qed.

Lemma build_request_well_formed (s : State number) :
  apiKey s <> "" -> fileContent s <> "" ->
  well_formed_request (build_request s).
Proof.
  intros Hkey Hcontent. unfold well_formed_request. simpl.
  repeat (split; [reflexivity|]).
  split; [exact Hcontent|]. now exists (apiKey s).
Qed.

(** Loading writes back what it read: the store is left as it was. *)
Lemma boot_store (store : gmap string string) :
  localStorage (boot (number := number) store) = store.
Proof.
  unfold boot, mount, commit, save_effect, load_effect, page_load, getItem.
  simpl.
  destruct (store !! STORAGE_KEY) as [saved|] eqn:Hsaved; [|reflexivity].
  destruct saved as [|c saved]; [reflexivity|]. simpl.
  now apply insert_id.
Qed.

(** No event touches a member of the store other than the key's. *)
Lemma step_store_frame (e : Event number) (w : World) (k : string) :
  k <> STORAGE_KEY ->
  localStorage (step e w) !! k = localStorage w !! k.
Proof.
  intros Hk.
  destruct e as [value| | |kind|files|files| |o| |o];
    try (match goal with
         | |- localStorage (step ?e w) !! k = _ =>
             destruct (step_credential e w) as [_ ->];
             [intros value'; discriminate | discriminate | reflexivity]
         end).
  - unfold step, changeApiKey, commit, save_effect, setItem. simpl.
    destruct (String.eqb value (apiKey (ui w))); [reflexivity|].
    destruct (Js.falsy value); [reflexivity|]. simpl.
    now apply lookup_insert_ne.
  - unfold step, handleClearApiKey, commit, save_effect. simpl.
    destruct (apiKey (ui w)); simpl; now apply lookup_delete_ne.
Qed.

(** The answer to a request leaves the result as it was or leaves the
    error as it was. *)
Lemma analyzeCode_resume_result_or_error (o : FetchOutcome number) (w : World) :
  analysisResults (ui (analyzeCode_resume o w)) = analysisResults (ui w)
  \/ analysisError (ui (analyzeCode_resume o w)) = analysisError (ui w).
Proof.
  unfold analyzeCode_resume, finally_analysis, catch_analysis, parse_reply.
  destruct o as [e|r]; [now left|].
  destruct (negb (ok r)); [now left|].
  destruct (body r) as [data|e]; [|now left].
  destruct (reply_text data) as [text|]; [|now left].
  destruct (JSON_parse (jsonContent text)); [now right | now left].
Qed.

Lemma handleFileChange_analysis (f : File) (w : World) :
  isAnalyzing (ui (handleFileChange f w)) = isAnalyzing (ui w)
  /\ analysisResults (ui (handleFileChange f w)) = analysisResults (ui w)
  /\ analysisError (ui (handleFileChange f w)) = analysisError (ui w).
Proof.
  unfold handleFileChange.
  destruct (MAX_FILE_SIZE <? size f)%N; [repeat split|].
  destruct (negb _); repeat split.
Qed.

Lemma result_excludes_error_same (w w' : World) :
  isAnalyzing (ui w') = isAnalyzing (ui w)
  /\ analysisResults (ui w') = analysisResults (ui w)
  /\ analysisError (ui w') = analysisError (ui w) ->
  result_excludes_error w -> result_excludes_error w'.
Proof.
  unfold result_excludes_error. intros (-> & -> & ->). tauto.
Qed.

Lemma step_result_excludes_error (e : Event number) (w : World) :
  flag_tracks_request w ->
  result_excludes_error w -> result_excludes_error (step e w).
Proof.
  intros Htrack Hinv.
  assert (Hcommit : forall w' : World,
             result_excludes_error w' ->
             result_excludes_error (commit w w')).
  { intros w'. unfold result_excludes_error. now rewrite commit_ui. }
  unfold step. apply Hcommit.
  destruct e as [value| | |kind|files|files| |o| |o].
  - exact Hinv.
  - exact Hinv.
  - exact Hinv.
  - now destruct kind.
  - unfold handleDrop. destruct files as [|f files]; [exact Hinv|].
    apply (result_excludes_error_same (render (setDragActive false) w));
      [apply handleFileChange_analysis | exact Hinv].
  - unfold handleInputChange. destruct files as [|f files]; [exact Hinv|].
    apply (result_excludes_error_same w);
      [apply handleFileChange_analysis | exact Hinv].
  - unfold result_excludes_error. simpl. split; [now split | now left].
  - destruct (Nat.ltb 0 (reading w)); [|exact Hinv].
    apply (result_excludes_error_same w); [|exact Hinv].
    destruct o; repeat split.
  - destruct (analyze_disabled (ui w)) eqn:Hdis.
    + unfold clickAnalyze. now rewrite Hdis.
    + destruct (clickAnalyze_enabled w Hdis) as [_ ->].
      unfold result_excludes_error. simpl. split; [now split | now left].
  - destruct (Nat.ltb 0 (in_flight w)) eqn:Hflight; [|exact Hinv].
    apply Nat.ltb_lt in Hflight.
    rewrite (in_flight_flag w Htrack) in Hflight.
    destruct Hinv as [Hflag _].
    destruct (isAnalyzing (ui w)); [|simpl in Hflight; lia].
    destruct (Hflag eq_refl) as [Hres Herr].
    unfold result_excludes_error.
    rewrite analyzeCode_resume_lowers_flag.
    split; [discriminate|].
    destruct (analyzeCode_resume_result_or_error o w) as [-> | ->];
      [now left | now right].
Qed.

Lemma boot_result_excludes_error (store : gmap string string) :
  result_excludes_error (boot (number := number) store).
Proof.
  unfold result_excludes_error, boot, mount. rewrite commit_ui.
  unfold save_effect, load_effect, page_load, getItem. simpl.
  destruct (store !! STORAGE_KEY) as [saved|];
    [destruct (Js.falsy saved)|]; simpl; (split; [discriminate | now left]).
Qed.

End Reachable.

(** X5.  Every request the component ever makes goes by POST to the one
    endpoint, names the one model with the fixed parameters, carries a
    non-empty file text, and carries a non-empty key as bearer token: the
    key goes nowhere else, and nothing is sent without key or text. *)
Theorem X5_every_request_well_formed {number : Type} `{Platform number}
    (store : gmap string string) (events : list (Event number))
    (req : Request) :
  In req (requests (run events (boot store))) ->
  well_formed_request req.
Proof.
  revert req.
  apply (reachable_invariant
           (fun w => forall req, In req (requests w) -> well_formed_request req)).
  - intros req. now rewrite requests_boot.
  - intros e w IH req.
    destruct (step_requests e w) as [-> | (-> & Hkey & Hcontent)];
      [apply IH|].
    rewrite in_app_iff. intros [Hold | [<- | []]]; [now apply IH|].
    now apply build_request_well_formed.
Qed.

Lemma X5_witness :
  In (build_request (ui (run session_with_result (boot ∅))))
     (requests (run session_with_result (boot ∅)))
  /\ well_formed_request
       (build_request (ui (run session_with_result (boot ∅)))).
Proof.
  assert (Hin : In (build_request (ui (run session_with_result (boot ∅))))
                   (requests (run session_with_result (boot ∅)))).
  { vm_compute. now left. }
  split; [exact Hin|].
  exact (X5_every_request_well_formed ∅ session_with_result _ Hin).
Defined.

(** X6.  Of the persistent store the component only ever touches the
    member named [deepseekApiKey]: every other member is, in every state
    the component reaches, what it was when the page was loaded. *)
Theorem X6_other_store_members_untouched {number : Type} `{Platform number}
    (store : gmap string string) (events : list (Event number))
    (k : string) :
  k <> STORAGE_KEY ->
  localStorage (run events (boot store)) !! k = store !! k.
Proof.
  intros Hk.
  apply (reachable_invariant (fun w => localStorage w !! k = store !! k)).
  - now rewrite boot_store.
  - intros e w IH. now rewrite step_store_frame.
Qed.

Lemma X6_witness :
  "theme" <> STORAGE_KEY
  /\ localStorage
       (run (session_with_result ++ [EvClearApiKey])
          (boot {["theme" := "dark"]})) !! "theme"
     = Some "dark".
Proof.
  assert (Hk : "theme" <> STORAGE_KEY) by discriminate.
  split; [exact Hk|].
  rewrite (X6_other_store_members_untouched {["theme" := "dark"]}
             (session_with_result ++ [EvClearApiKey]) "theme" Hk).
  apply lookup_singleton_eq.
Defined.

(** X7.  A restart loses nothing of a key that is held: in every state the
    component reaches with a non-empty key, the restarted component holds
    the same key, and the store is the same. *)
Theorem X7_restart_keeps_held_key {number : Type} `{Platform number}
    (store : gmap string string) (events : list (Event number)) :
  let w := run events (boot store) in
  apiKey (ui w) <> "" ->
  apiKey (ui (restart w)) = apiKey (ui w)
  /\ localStorage (restart w) = localStorage w.
Proof.
  intros w Hkey. unfold restart. split; [|apply boot_store].
  apply boot_loads_stored; [|exact Hkey].
  now apply (reachable_key_is_stored store events).
Qed.

Lemma X7_witness :
  apiKey (ui (run session_pending (boot ∅))) <> ""
  /\ apiKey (ui (restart (run session_pending (boot ∅))))
     = apiKey (ui (run session_pending (boot ∅))).
Proof.
  assert (Hkey : apiKey (ui (run session_pending (boot ∅))) <> "")
    by (vm_compute; discriminate).
  split; [exact Hkey|].
  exact (proj1 (X7_restart_keeps_held_key ∅ session_pending Hkey)).
Defined.

(** X8.  In every state the component reaches, a result and an analysis
    error are never held together, and while a request is under way
    neither is held. *)
Theorem X8_result_excludes_error {number : Type} `{Platform number}
    (store : gmap string string) (events : list (Event number)) :
  let w := run events (boot store) in
  (analysisResults (ui w) = None \/ analysisError (ui w) = "")
  /\ (isAnalyzing (ui w) = true ->
      analysisResults (ui w) = None /\ analysisError (ui w) = "").
Proof.
  intros w.
  enough (Hinv : flag_tracks_request w /\ result_excludes_error w).
  { destruct Hinv as [_ [Hflag Hexcl]]. split; assumption. }
  subst w.
  apply (reachable_invariant
           (fun w => flag_tracks_request w /\ result_excludes_error w)).
  - split; [apply boot_flag_tracks_request | apply boot_result_excludes_error].
  - intros e w [Htrack Hexcl].
    split; [now apply step_flag_tracks_request|].
    now apply step_result_excludes_error.
Qed.

(** X9.  When the request under way fails without a response, or the body
    of an ok response cannot be read as JSON, the analysis error is the
    message of the failure behind the fixed prefix (the words Unknown error
    when what was thrown is no Error), no result is held, the flag is
    down, and [JSON.parse] is not called. *)
Theorem X9_failure_without_reply {number : Type} `{Platform number}
    (store : gmap string string) (events : list (Event number))
    (e : Thrown) :
  let w := run events (boot store) in
  0 < in_flight w ->
  (let w' := step (EvFetchSettles (FetchRejects e)) w in
   analysisError (ui w') = analysis_error_message e
   /\ analysisResults (ui w') = None
   /\ isAnalyzing (ui w') = false
   /\ effects w' = (effects w ++ [FxFetchSettled])%list)
  /\ (forall r : Response number,
      (200 <= status r <= 299)%N -> body r = BodyRejects e ->
      let w' := step (EvFetchSettles (FetchResponds r)) w in
      analysisError (ui w') = analysis_error_message e
      /\ analysisResults (ui w') = None
      /\ isAnalyzing (ui w') = false
      /\ effects w' = (effects w ++ [FxFetchSettled; FxBodyJson])%list)
  /\ analysis_error_message NonError = "Error analyzing code: Unknown error"
  /\ (forall message, analysis_error_message (ErrorObj message)
                      = "Error analyzing code: " ++ message).
Proof.
  intros w Hpending.
  pose proof (pending_request_no_result store events Hpending) as Hres.
  fold w in Hres.
  split; [|split; [|split; [reflexivity | reflexivity]]].
  - intros w'. subst w'. rewrite (step_fetch_settles _ w Hpending).
    repeat split. exact Hres.
  - intros r Hstatus Hbody w'. subst w'.
    rewrite (step_fetch_settles _ w Hpending).
    apply ok_range in Hstatus.
    unfold analyzeCode_resume. rewrite Hstatus, Hbody. simpl.
    split; [reflexivity|]. split; [exact Hres|]. split; [reflexivity|].
    now rewrite <- app_assoc.
Qed.

Lemma X9_witness :
  let w := run session_pending (boot ∅) in
  let w' := step (EvFetchSettles
                    (FetchRejects (ErrorObj "Failed to fetch"))) w in
  0 < in_flight w
  /\ analysisError (ui w') = "Error analyzing code: Failed to fetch"
  /\ analysisResults (ui w') = None.
Proof.
  cbv zeta.
  assert (Hpending : 0 < in_flight (run session_pending (boot ∅)))
    by (vm_compute; lia).
  destruct (X9_failure_without_reply ∅ session_pending
              (ErrorObj "Failed to fetch") Hpending)
    as ((Herr & Hres & _) & _).
  split; [exact Hpending|]. split; [exact Herr | exact Hres].
Defined.

(** ** The envelope and the results panel *)

Section Envelope.

Context {number : Type}.
Local Abbreviation json := (json number).

Lemma get_named_Some (k : string) (v : option json) (x : json) :
  get_named k v = Some (Some x) <->
  exists members, v = Some (JObj members) /\ member k members = Some x.
Proof.
  unfold get_named, member. split.
  - destruct v as [[| | | | |members]|]; try discriminate.
    intros [= Hx]. now exists members.
  - intros (members & -> & Hx). now rewrite Hx.
Qed.

Lemma get_named_throws (k : string) (v : option json) :
  get_named k v = None <-> v = None \/ v = Some JNull.
Proof.
  unfold get_named. split.
  - destruct v as [[| | | | |members]|]; try discriminate; auto.
  - now intros [-> | ->].
Qed.

Lemma get_index0_object (v : option json) (members : list (string * json)) :
  get_index0 v = Some (Some (JObj members)) <->
  exists choices,
    v = Some choices
    /\ match choices with
       | JArr items => List.hd_error items
       | JObj choice_members => member "0" choice_members
       | _ => None
       end = Some (JObj members).
Proof.
  unfold get_index0, member. split.
  - destruct v as [[| | |s|items|choice_members]|]; try discriminate.
    + destruct s; discriminate.
    + intros [= Hx]. now exists (JArr items).
    + intros [= Hx]. now exists (JObj choice_members).
  - intros (choices & -> & Hx).
    destruct choices as [| | |s|items|choice_members]; try discriminate;
      now rewrite Hx.
Qed.

End Envelope.

(** X10.  [reply_text] reads a reply exactly from the envelopes of this
    shape: an object whose member [choices] is an array (or an object with
    a member named 0) whose first element is an object, whose member
    [message] is an object, whose member [content] is a string.  From
    every other body it reads nothing, and the run ends in the parse
    error: so it does for an empty [choices], a missing [message], or a
    [content] that is not a string. *)
Theorem X10_reply_text_shape {number : Type} `{Platform number}
    (data : json number) (text : string) :
  (reply_text data = Some text <-> envelope_shape data text)
  /\ ((forall text', ~ envelope_shape data text') ->
      forall (r : Response number) (w : World number),
        (200 <= status r <= 299)%N -> body r = BodyJson data ->
        analysisError (ui (analyzeCode_resume (FetchResponds r) w))
        = MSG_PARSE_ERROR
        /\ analysisResults (ui (analyzeCode_resume (FetchResponds r) w))
           = analysisResults (ui w)).
Proof.
  assert (Hshape : forall t, reply_text data = Some t <-> envelope_shape data t).
  { intros t. unfold reply_text, envelope_shape. split.
    - destruct (get_named "choices" (Some data)) as [choices|] eqn:Hchoices;
        [|discriminate]. simpl.
      destruct (get_index0 choices) as [first|] eqn:Hfirst; [|discriminate].
      simpl.
      destruct (get_named "message" first) as [message|] eqn:Hmessage;
        [|discriminate]. simpl.
      destruct (get_named "content" message) as [content|] eqn:Hcontent;
        [|discriminate]. simpl.
      destruct content as [[| | |s| |]|]; try discriminate.
      intros [= ->].
      apply get_named_Some in Hcontent as (message_members & -> & Hc).
      apply get_named_Some in Hmessage as (first_members & -> & Hm).
      apply get_index0_object in Hfirst as (ch & -> & Hf).
      apply get_named_Some in Hchoices as (members & [= ->] & Hch).
      now exists members, ch, first_members, message_members.
    - intros (members & ch & first_members & message_members
              & -> & Hch & Hf & Hm & Hc).
      assert (H1 : get_named "choices" (Some (JObj members)) = Some (Some ch)).
      { apply get_named_Some. now exists members. }
      assert (H2 : get_index0 (Some ch) = Some (Some (JObj first_members))).
      { apply get_index0_object. now exists ch. }
      assert (H3 : get_named "message" (Some (JObj first_members))
                   = Some (Some (JObj message_members))).
      { apply get_named_Some. now exists first_members. }
      assert (H4 : get_named "content" (Some (JObj message_members))
                   = Some (Some (JStr t))).
      { apply get_named_Some. now exists message_members. }
      rewrite H1. cbn -[get_index0 get_named].
      rewrite H2. cbn -[get_index0 get_named].
      rewrite H3. cbn -[get_index0 get_named].
      rewrite H4. reflexivity. }
  split; [apply Hshape|].
  intros Hnone r w Hstatus Hbody.
  apply ok_range in Hstatus.
  apply (reply_missing_is_parse_error r data w Hstatus Hbody).
  destruct (reply_text data) as [t|] eqn:Ht; [|reflexivity].
  destruct (Hnone t). now apply Hshape.
Qed.

(** An empty [choices] array is an envelope without a reply. *)
Example empty_choices_example :
  reply_text (JObj [("choices", JArr [])] : json Z) = None.
Proof. reflexivity. Qed.

Lemma X10_witness :
  (forall text', ~ envelope_shape (JObj [("choices", JArr [])] : json Z) text')
  /\ analysisError
       (ui (analyzeCode_resume
              (FetchResponds
                 (mkResponse 200 "OK" (BodyJson (JObj [("choices", JArr [])]))))
              (run session_pending (boot ∅))))
     = MSG_PARSE_ERROR.
Proof.
  assert (Hnone : forall text',
             ~ envelope_shape (JObj [("choices", JArr [])] : json Z) text').
  { intros text' Hshape.
    apply (proj1 (X10_reply_text_shape _ text')) in Hshape.
    discriminate Hshape. }
  split; [exact Hnone|].
  assert (Hstatus : (200 <= 200 <= 299)%N)
    by (split; vm_compute; discriminate).
  exact (proj1 (proj2 (X10_reply_text_shape (JObj [("choices", JArr [])]) "")
                  Hnone
                  (mkResponse 200 "OK"
                     (BodyJson (JObj [("choices", JArr [])])))
                  (run session_pending (boot ∅)) Hstatus eq_refl)).
Defined.

Section Panel.

Context {number : Type}.
Local Abbreviation json := (json number).

Lemma get_named_is_Some (k : string) (v : option json) :
  is_Some (get_named k v) <-> exists x, v = Some x /\ x <> JNull.
Proof.
  unfold get_named. split.
  - destruct v as [[| | | | |members]|]; intros [y Hy]; try discriminate;
      eexists; (split; [reflexivity | discriminate]).
  - intros (x & -> & Hx). destruct x; first [now destruct Hx | now eexists].
Qed.

Lemma read_issue_is_Some (issue : json) :
  is_Some (read_issue issue) <-> issue <> JNull.
Proof.
  unfold read_issue. rewrite mapM_is_Some. split.
  - intros Hall. apply Forall_inv in Hall. unfold compose in Hall.
    apply get_named_is_Some in Hall as (x & [= <-] & Hx). exact Hx.
  - intros Hne. apply Forall_forall. intros k _. unfold compose.
    apply get_named_is_Some. now exists issue.
Qed.

Lemma read_summary_is_Some (results : json) (k : string) :
  is_Some (read_summary results k) <->
  exists members summary,
    results = JObj members
    /\ member "summary" members = Some summary /\ summary <> JNull.
Proof.
  unfold read_summary. split.
  - intros [y Hy]. apply bind_Some in Hy as (summary & Hsum & Hk).
    assert (Hread : is_Some (get_named k summary)) by now exists y.
    apply get_named_is_Some in Hread as (x & -> & Hx).
    apply get_named_Some in Hsum as (members & [= ->] & Hmember).
    now exists members, x.
  - intros (members & summary & -> & Hmember & Hne).
    assert (Hsum : get_named "summary" (Some (JObj members))
                   = Some (Some summary)).
    { apply get_named_Some. now exists members. }
    rewrite Hsum. cbn -[get_named].
    apply get_named_is_Some. now exists summary.
Qed.

End Panel.

(** X11.  The results panel reads [summary] and [issues] of the result
    without checking them.  Its reads go through exactly when the result
    is an object whose [summary] is present and not null and whose
    [issues] is an array without null elements; for every other result
    that is shown a read throws while the component renders.  A reply that
    parses to an object without [summary] is accepted as the result all
    the same, with no error set. *)
Theorem X11_panel_reads_shape {number : Type} `{Platform number}
    (results : json number) :
  (is_Some (panel_reads results) <-> panel_shape results)
  /\ (forall (r : Response number) (data : json number) (text : string)
             (members : list (string * json number)) (w : World number),
      (200 <= status r <= 299)%N -> body r = BodyJson data ->
      reply_text data = Some text ->
      JSON_parse (jsonContent text) = Some (JObj members) ->
      member "summary" members = None ->
      let w' := analyzeCode_resume (FetchResponds r) w in
      analysisResults (ui w') = Some (JObj members)
      /\ analysisError (ui w') = analysisError (ui w)
      /\ panel_reads (JObj members) = None).
Proof.
  assert (Hshape : forall v : json number,
             is_Some (panel_reads v) <-> panel_shape v).
  { intros v. unfold panel_reads, panel_shape. split.
    - intros [y Hy].
      apply bind_Some in Hy as (summary & Hsummary & Hy).
      apply bind_Some in Hy as (issues & Hissues & Hy).
      assert (Hfirst : is_Some (read_summary v "totalIssues")).
      { assert (Hall : is_Some (mapM (read_summary v) SUMMARY_READS))
          by now exists summary.
        apply mapM_is_Some_1, Forall_inv in Hall. exact Hall. }
      apply read_summary_is_Some in Hfirst as (members & s & -> & Hs & Hne).
      destruct issues as [[| | | |items|]|]; try discriminate.
      apply bind_Some in Hy as (cards & Hcards & _).
      apply get_named_Some in Hissues as (members' & [= <-] & Hi).
      assert (Hall : is_Some (mapM read_issue items)) by now exists cards.
      apply mapM_is_Some in Hall.
      exists members, s, items.
      split; [reflexivity|]. split; [exact Hs|]. split; [exact Hne|].
      split; [exact Hi|].
      eapply Forall_impl; [exact Hall|].
      intros issue. apply read_issue_is_Some.
    - intros (members & s & items & -> & Hs & Hne & Hi & Hall).
      assert (Hsum : is_Some (mapM (read_summary (JObj members))
                                 SUMMARY_READS)).
      { apply mapM_is_Some. apply Forall_forall. intros k _.
        apply read_summary_is_Some. now exists members, s. }
      destruct Hsum as [summary Hsummary]. rewrite Hsummary.
      cbn -[get_named mapM].
      assert (Hissues : get_named "issues" (Some (JObj members))
                        = Some (Some (JArr items))).
      { apply get_named_Some. now exists members. }
      rewrite Hissues. cbn -[get_named mapM].
      assert (Hcards : is_Some (mapM read_issue items)).
      { apply mapM_is_Some. eapply Forall_impl; [exact Hall|].
        intros issue. apply read_issue_is_Some. }
      destruct Hcards as [cards ->]. now eexists. }
  split; [apply Hshape|].
  intros r data text members w Hstatus Hbody Htext Hparse Hmissing w'.
  subst w'. apply ok_range in Hstatus.
  rewrite (analyzeCode_resume_reply r data text w Hstatus Hbody Htext).
  rewrite Hparse.
  split; [reflexivity|]. split; [reflexivity|].
  destruct (panel_reads (JObj members)) as [y|] eqn:Hreads; [|reflexivity].
  assert (Hsome : is_Some (panel_reads (JObj members))) by now exists y.
  apply Hshape in Hsome as (members' & s & items & [= <-] & Hs & _).
  congruence.
Qed.

Lemma X11_witness :
  let r := mkResponse 200 "OK" (BodyJson (envelope "{}")) in
  let w' := analyzeCode_resume (FetchResponds r)
              (run session_pending (boot ∅)) in
  (200 <= status r <= 299)%N
  /\ JSON_parse "{}" = Some (JObj [])
  /\ member "summary" ([] : list (string * json Z)) = None
  /\ analysisResults (ui w') = Some (JObj [])
  /\ panel_reads (JObj [] : json Z) = None.
Proof.
  cbv zeta.
  set (r := mkResponse 200 _ _).
  assert (Hstatus : (200 <= status r <= 299)%N)
    by (split; vm_compute; discriminate).
  assert (Hparse : JSON_parse (jsonContent "{}") = Some (JObj [])
                     :> option (json Z)) by reflexivity.
  assert (Hmissing : member "summary" ([] : list (string * json Z)) = None)
    by reflexivity.
  destruct (proj2 (X11_panel_reads_shape (JObj [])) r (envelope "{}") "{}" []
              (run session_pending (boot ∅)) Hstatus eq_refl eq_refl
              Hparse Hmissing) as (Hres & _ & Hreads).
  split; [exact Hstatus|]. split; [exact Hparse|]. split; [exact Hmissing|].
  split; [exact Hres | exact Hreads].
Defined.

(** ** The export *)

Lemma supported_extension_name (f : File) :
  In (fileExtension f) supported_keys -> Js.falsy (name f) = false.
Proof.
  intros Hext. destruct f as [[|c n] bytes]; [|reflexivity].
  apply includes_In in Hext. discriminate Hext.
Qed.

(** X12.  [downloadResults] offers the result that is held under the name
    of the file that is selected now.  After a result was obtained and
    another file was ingested, the export is the earlier file's result,
    named code-review-, the new file's name, .json.  After the file is
    cleared nothing is offered, since the result is cleared with it. *)
Theorem X12_export_named_after_current_file
    {number : Type} `{Exporter number}
    (f : File) (content : string) (w : World number) (d : Download) :
  (size f <= 5242880)%N ->
  In (fileExtension f) (map fst SUPPORTED_EXTENSIONS) ->
  downloadResults (ui w) = Some d ->
  (exists results,
      analysisResults (ui w) = Some results
      /\ href d = "data:application/json;charset=utf-8,"
                  ++ encodeURIComponent (JSON_stringify results))
  /\ downloadResults (ui (ingest f (ReadLoaded content) w))
     = Some (mkDownload (href d) ("code-review-" ++ name f ++ ".json"))
  /\ downloadResults (ui (handleClearFile w)) = None.
Proof.
  intros Hsize Hext Hd.
  assert (Hok : passes_validation f = true).
  { apply passes_validation_iff. now split. }
  pose proof (supported_extension_name f Hext) as Hname.
  unfold downloadResults in Hd.
  destruct (analysisResults (ui w)) as [results|] eqn:Hres; [|discriminate].
  destruct (json_falsy results) eqn:Hfalsy; [discriminate|].
  injection Hd as <-.
  split; [now exists results|]. split; [|reflexivity].
  unfold ingest. rewrite Hok.
  rewrite (handleFileChange_accepted f w Hsize Hext).
  unfold downloadResults. simpl. now rewrite Hres, Hfalsy, Hname.
Qed.

Lemma X12_witness :
  let w := run session_with_result (boot ∅) in
  (size b_js <= 5242880)%N
  /\ In (fileExtension b_js) (map fst SUPPORTED_EXTENSIONS)
  /\ (exportName <$> downloadResults (ui w)) = Some "code-review-a.py.json"
  /\ (exportName <$>
      downloadResults (ui (ingest b_js (ReadLoaded "let x = 2") w)))
     = Some "code-review-b.js.json".
Proof.
  cbv zeta.
  set (w := run session_with_result (boot ∅)).
  assert (Hsize : (size b_js <= 5242880)%N) by (vm_compute; discriminate).
  assert (Hext : In (fileExtension b_js) (map fst SUPPORTED_EXTENSIONS)).
  { apply includes_In. vm_compute. reflexivity. }
  destruct (downloadResults (ui w)) as [d|] eqn:Hd;
    [|vm_compute in Hd; discriminate Hd].
  assert (Hname : exportName d = "code-review-a.py.json").
  { vm_compute in Hd. injection Hd as <-. reflexivity. }
  destruct (X12_export_named_after_current_file b_js "let x = 2" w d
              Hsize Hext Hd) as (_ & Hnew & _).
  split; [exact Hsize|]. split; [exact Hext|].
  split; [simpl; now rewrite Hname|].
  rewrite Hnew. reflexivity.
Defined.

(** ** Two selections in a row *)

(** X13.  Nothing ties a read to the file it was started for.  When two
    valid files are selected one after the other and the read of the first
    ends last, the file handle and the label are the second file's and the
    text is the first file's. *)
Theorem X13_last_read_to_end_wins {number : Type}
    (f1 f2 : File) (c1 c2 : string) (w : World number) :
  (size f1 <= 5242880)%N ->
  In (fileExtension f1) (map fst SUPPORTED_EXTENSIONS) ->
  (size f2 <= 5242880)%N ->
  In (fileExtension f2) (map fst SUPPORTED_EXTENSIONS) ->
  let started := handleFileChange f2 (handleFileChange f1 w) in
  let w' := reader_onload c1 (reader_onload c2 started) in
  effects started = (effects w ++ [FxReadAsText f1; FxReadAsText f2])%list
  /\ file (ui w') = Some f2
  /\ table_get SUPPORTED_EXTENSIONS (fileExtension f2)
     = Some (fileLanguage (ui w'))
  /\ fileContent (ui w') = c1
  /\ fileError (ui w') = "".
Proof.
  intros Hsize1 Hext1 Hsize2 Hext2 started w'. subst w' started.
  rewrite (handleFileChange_accepted f1 w Hsize1 Hext1).
  rewrite (handleFileChange_accepted f2 _ Hsize2 Hext2).
  split; [simpl; now rewrite <- app_assoc|].
  split; [reflexivity|].
  split; [symmetry; now apply language_of_key|].
  split; reflexivity.
Qed.

Lemma X13_witness :
  let w' := reader_onload "print(1)"
              (reader_onload "let x = 2"
                 (handleFileChange b_js
                    (handleFileChange a_py (boot (number := Z) ∅)))) in
  (size a_py <= 5242880)%N
  /\ In (fileExtension a_py) (map fst SUPPORTED_EXTENSIONS)
  /\ (size b_js <= 5242880)%N
  /\ In (fileExtension b_js) (map fst SUPPORTED_EXTENSIONS)
  /\ file (ui w') = Some b_js
  /\ fileContent (ui w') = "print(1)".
Proof.
  cbv zeta.
  assert (Hsize1 : (size a_py <= 5242880)%N) by (vm_compute; discriminate).
  assert (Hsize2 : (size b_js <= 5242880)%N) by (vm_compute; discriminate).
  assert (Hext1 : In (fileExtension a_py) (map fst SUPPORTED_EXTENSIONS)).
  { apply includes_In. vm_compute. reflexivity. }
  assert (Hext2 : In (fileExtension b_js) (map fst SUPPORTED_EXTENSIONS)).
  { apply includes_In. vm_compute. reflexivity. }
  destruct (X13_last_read_to_end_wins a_py b_js "print(1)" "let x = 2"
              (boot (number := Z) ∅) Hsize1 Hext1 Hsize2 Hext2)
    as (_ & Hfile & _ & Htext & _).
  repeat (split; [assumption|]). exact Htext.
Defined.
